(** * EEGResNet: construction and residual-block forward pass

    A shallow embedding of [braindecode/models/eegresnet.py]: the
    constructor [EEGResNet.__init__], the weight initialiser
    [EEGResNet._weights_init], and the class [_ResidualBlock] with its
    constructor and its [forward] method.

    Python integers are [Z] ([%] and [//] are [Z.modulo] and [Z.div], which
    agree with Python for the positive divisor 2 used here).  Class names and
    module names are strings.  Float literals that are only stored and passed
    on (momentum, epsilon) are rationals.  Exceptions are an error monad.

    The layers of the framework ([nn.Conv2d], [nn.BatchNorm2d], ...) and the
    helper modules of the package ([Ensure4d], [AvgPool2dWithConv],
    [SqueezeFinalOutput]) are records of the arguments they are built from,
    with their parameter tensors; what they compute on a tensor, and the
    contents of a parameter tensor, are operations of a type class.  The
    exceptions are the ones this file raises, or provokes: by an attribute
    access, by reading the time length from the mixin when there is none,
    or by asking the framework for a convolution of a negative size. *)

From Stdlib Require Import ZArith List String Ascii Bool Lia QArith_base.
From Stdlib Require Import DecimalString Decimal DecimalZ FinFun.
Import ListNotations.
Local Open Scope string_scope.
Local Open Scope list_scope.
Local Open Scope Z_scope.

(** ** Exceptions *)

Inductive exn : Type :=
| AssertionError (msg : string)
| AttributeError (attr : string)
| RuntimeError (msg : string)
| ValueError.

Inductive result (A : Type) : Type :=
| Ok (a : A)
| Raise (e : exn).
Arguments Ok {A} a.
Arguments Raise {A} e.

Definition bind {A B : Type} (r : result A) (k : A -> result B) : result B :=
  match r with
  | Ok a => k a
  | Raise e => Raise e
  end.

Notation "x <- e ;; k" := (bind e (fun x => k))
  (at level 61, e at next level, right associativity).
Notation "e ;;; k" := (bind e (fun _ => k))
  (at level 61, right associativity).

(** [assert cond, msg] *)
Definition assert (cond : bool) (msg : string) : result unit :=
  if cond then Ok tt else Raise (AssertionError msg).

(** [for i in xs: s = body(i, s)], stopping at the first exception. *)
Fixpoint for_each {S : Type} (xs : list Z) (body : Z -> S -> result S) (s : S)
  : result S :=
  match xs with
  | [] => Ok s
  | i :: rest => s' <- body i s ;; for_each rest body s'
  end.

(** [range(lo, hi)] *)
Definition range (lo hi : Z) : list Z :=
  map (fun k => lo + Z.of_nat k) (seq 0 (Z.to_nat (hi - lo))).

(** ** Strings *)

(** [needle in haystack] for strings. *)
Definition contains (needle haystack : string) : bool :=
  match String.index 0 needle haystack with
  | Some _ => true
  | None => false
  end.

(** ["{:d}".format(z)] *)
Definition format_d (z : Z) : string := NilZero.string_of_int (Z.to_int z).

(** ["res_{:d}_{:d}".format(i_block, i_layer)] *)
Definition res_name (i_block i_layer : Z) : string :=
  ("res_" ++ format_d i_block ++ "_" ++ format_d i_layer)%string.

(** Reading a decimal string back as an integer. *)
Definition parse_d (s : string) : option Z :=
  option_map Z.of_int (NilZero.int_of_string s).

(** Whether no character of a string is an underscore. *)
Fixpoint no_underscore (s : string) : bool :=
  match s with
  | EmptyString => true
  | String c s' => negb (Ascii.eqb c "_") && no_underscore s'
  end.

(** ** Integer helpers *)

(** numpy's int64 product, as in [cur_dilation[0] *= 2] on an integer
    array, or in [(filter_time_length - 1) * dilation[0]] on an entry of
    such an array: the exact product wrapped into [-2^63, 2^63). *)
Definition wrap64 (z : Z) : Z := (z + 2 ^ 63) mod 2 ^ 64 - 2 ^ 63.
Definition imul64 (a b : Z) : Z := wrap64 (a * b).

(** [int(1.5 * m)] for an integer [m]: the float product [1.5 * m] is the
    exact rational [3m/2] whenever [|3m| < 2^53], and [int] truncates
    towards zero. *)
Definition int_1_5_times (m : Z) : Z := Z.quot (3 * m) 2.

(** [int(2 * m)] on an integer is the integer itself. *)
Definition int_2_times (m : Z) : Z := 2 * m.

(** ** The framework's parameter tensors

    [W] is the type of the contents of a parameter tensor.
    [fresh_param shape] is what a layer's own constructor leaves in a
    parameter of that shape; [constant_ w c] is
    [torch.nn.init.constant_(w, c)], which overwrites [w] with [c]. *)
Class ParamOps : Type := {
  W : Type;
  fresh_param : list Z -> W;
  constant_ : W -> Z -> W
}.

Section Net.

Context `{ParamOps}.

(** ** Framework layers, as records of their constructor arguments *)

Record Conv2d : Type := mkConv2d {
  in_channels : Z;
  out_channels : Z;
  kernel_size : Z * Z;
  stride : Z * Z;
  padding : Z * Z;
  dilation : Z * Z;
  conv_weight : W;
  conv_bias : option W
}.

Record BatchNorm2d : Type := mkBatchNorm2d {
  num_features : Z;
  momentum : Q;
  affine : bool;
  eps : Q;
  bn_weight : W;
  bn_bias : W
}.

(** The module [nn.Conv2d(in, out, kernel, stride=, padding=, dilation=,
    bias=)] once it is built. *)
Definition built_Conv2d (i o : Z) (k s p d : Z * Z) (with_bias : bool)
  : Conv2d :=
  {| in_channels := i; out_channels := o; kernel_size := k; stride := s;
     padding := p; dilation := d;
     conv_weight := fresh_param [o; i; fst k; snd k];
     conv_bias := if with_bias then Some (fresh_param [o]) else None |}.

(** [nn.Conv2d(in, out, kernel, stride=, padding=, dilation=, bias=)].  The
    constructor allocates the weight, of shape
    [(out, in, kernel[0], kernel[1])], and the framework refuses to
    allocate a tensor with a negative size, with a [RuntimeError] (its
    message is shortened here). *)
Definition nn_Conv2d (i o : Z) (k s p d : Z * Z) (with_bias : bool)
  : result Conv2d :=
  if (o <? 0) || (i <? 0) || (fst k <? 0) || (snd k <? 0)
  then Raise (RuntimeError "negative dimension")
  else Ok (built_Conv2d i o k s p d with_bias).

(** Length along the time axis of the output of a convolution on an input
    of length [L]: the framework's size rule
    [floor((L + 2*padding - dilation*(kernel - 1) - 1) / stride) + 1]. *)
Definition conv_out_len (c : Conv2d) (L : Z) : Z :=
  (L + 2 * fst (padding c) - fst (dilation c) * (fst (kernel_size c) - 1) - 1)
    / fst (stride c) + 1.

(** [nn.BatchNorm2d(n, momentum=, affine=True, eps=)].  Every call in this
    file comes after a convolution was built with [n] output channels, so
    that [n] is not negative here. *)
Definition nn_BatchNorm2d (n : Z) (mom : Q) (e : Q) : BatchNorm2d :=
  {| num_features := n; momentum := mom; affine := true; eps := e;
     bn_weight := fresh_param [n]; bn_bias := fresh_param [n] |}.

(** Modelled from the spec: the modules [Ensure4d], [AvgPool2dWithConv] and
    [SqueezeFinalOutput] of [braindecode.modules], which this file imports
    and does not define.  The specification has them as opaque
    collaborators (a rank-normalising reshape, a dilation-aware average
    pooling, the removal of trailing singleton axes): each is a module
    without submodules and without the attributes [weight] and [bias],
    known by its class and its constructor arguments. *)
Inductive helper_module : Type :=
| Ensure4d
| AvgPool2dWithConv (kernel stride_ dilation_ : Z * Z)
| SqueezeFinalOutput.

(** Leaf modules.  An activation is known by its class name only and has no
    parameters. *)
Inductive layer : Type :=
| Helper (h : helper_module)
| Rearrange (pattern : string)
| Conv (c : Conv2d)
| BatchNorm (b : BatchNorm2d)
| Activation (cls : string)
| AdaptiveAvgPool2d (output_size : Z * Z).

(** [module.__class__.__name__] *)
Definition class_name (m : layer) : string :=
  match m with
  | Helper Ensure4d => "Ensure4d"
  | Helper (AvgPool2dWithConv _ _ _) => "AvgPool2dWithConv"
  | Helper SqueezeFinalOutput => "SqueezeFinalOutput"
  | Rearrange _ => "Rearrange"
  | Conv _ => "Conv2d"
  | BatchNorm _ => "BatchNorm2d"
  | Activation cls => cls
  | AdaptiveAvgPool2d _ => "AdaptiveAvgPool2d"
  end.

(** ** _ResidualBlock *)

Record ResidualBlock : Type := mkResidualBlock {
  n_pad_chans : Z;
  conv_1 : layer;
  bn1 : layer;
  conv_2 : layer;
  bn2 : layer;
  nonlinearity : layer
}.

(** [_ResidualBlock.__init__].  The argument [dilation] is the integer
    (int64) array of the caller, so that the product
    [(filter_time_length - 1) * dilation[0]] is an int64 product.  The
    array is read here, once ([int(dilation[0])], [int(dilation[1])]): the
    block keeps the two integers and not the caller's array, which the
    caller goes on to update in place. *)
Definition ResidualBlock_init (in_filters out_num_filters : Z)
    (dilation : Z * Z) (filter_time_length : Z) (nonlin : string)
    (batch_norm_alpha batch_norm_epsilon : Q) : result ResidualBlock :=
  let time_padding := imul64 (filter_time_length - 1) (fst dilation) in
  assert (time_padding mod 2 =? 0) "" ;;;
  let time_padding := time_padding / 2 in
  let dilation := (fst dilation, snd dilation) in
  assert ((out_num_filters - in_filters) mod 2 =? 0)
    "Need even number of extra channels in order to be able to pad correctly" ;;;
  let n_pad_chans := out_num_filters - in_filters in
  conv_1 <- nn_Conv2d in_filters out_num_filters (filter_time_length, 1)
              (1, 1) (time_padding, 0) dilation true ;;
  let bn1 := nn_BatchNorm2d out_num_filters batch_norm_alpha
               batch_norm_epsilon in
  conv_2 <- nn_Conv2d out_num_filters out_num_filters (filter_time_length, 1)
              (1, 1) (time_padding, 0) dilation true ;;
  let bn2 := nn_BatchNorm2d out_num_filters batch_norm_alpha
               batch_norm_epsilon in
  Ok {| n_pad_chans := n_pad_chans;
        conv_1 := Conv conv_1;
        bn1 := BatchNorm bn1;
        conv_2 := Conv conv_2;
        bn2 := BatchNorm bn2;
        nonlinearity := Activation nonlin |}.

(** The defaults of [_ResidualBlock.__init__]: [filter_time_length=3],
    [nonlinearity=nn.ELU], [batch_norm_alpha=0.1], [batch_norm_epsilon=1e-4]. *)
Definition ResidualBlock_default (in_filters out_num_filters : Z)
    (dilation : Z * Z) : result ResidualBlock :=
  ResidualBlock_init in_filters out_num_filters dilation 3 "ELU"
    (1 # 10)%Q (1 # 10000)%Q.

(** ** Modules and named children *)

Inductive module : Type :=
| Layer (l : layer)
| Block (b : ResidualBlock)
| Sequential (children : list (string * layer)).

(** [self.add_module(name, m)]: [self._modules[name] = m] on an ordered
    dictionary: a new name goes last, a known name keeps its place. *)
Fixpoint add_module {M : Type} (name : string) (m : M) (ms : list (string * M))
  : list (string * M) :=
  match ms with
  | [] => [(name, m)]
  | (n, m') :: rest =>
      if String.eqb n name then (n, m) :: rest
      else (n, m') :: add_module name m rest
  end.

Fixpoint get_module {M : Type} (name : string) (ms : list (string * M))
  : option M :=
  match ms with
  | [] => None
  | (n, m) :: rest => if String.eqb n name then Some m else get_module name rest
  end.

(** ** EEGResNet._weights_init *)

Inductive init_case : Type := InitConv | InitBatchNorm | InitNone.

(** The two tests on the class name. *)
Definition weights_init_case (classname : string) : init_case :=
  if contains "Conv" classname && negb (String.eqb classname "AvgPool2dWithConv")
  then InitConv
  else if contains "BatchNorm" classname then InitBatchNorm
  else InitNone.

(** Attribute access [module.weight] and [module.bias]; a bias may be
    [None] (a convolution built with [bias=False]). *)
Definition get_weight (m : layer) : result W :=
  match m with
  | Conv c => Ok (conv_weight c)
  | BatchNorm b => Ok (bn_weight b)
  | _ => Raise (AttributeError "weight")
  end.

Definition get_bias (m : layer) : result (option W) :=
  match m with
  | Conv c => Ok (conv_bias c)
  | BatchNorm b => Ok (Some (bn_bias b))
  | _ => Raise (AttributeError "bias")
  end.

(** In-place update of the tensor behind [module.weight] and [module.bias]. *)
Definition set_weight (w : W) (m : layer) : layer :=
  match m with
  | Conv c =>
      Conv {| in_channels := in_channels c; out_channels := out_channels c;
              kernel_size := kernel_size c; stride := stride c;
              padding := padding c; dilation := dilation c;
              conv_weight := w; conv_bias := conv_bias c |}
  | BatchNorm b =>
      BatchNorm {| num_features := num_features b; momentum := momentum b;
                   affine := affine b; eps := eps b;
                   bn_weight := w; bn_bias := bn_bias b |}
  | _ => m
  end.

Definition set_bias (v : W) (m : layer) : layer :=
  match m with
  | Conv c =>
      Conv {| in_channels := in_channels c; out_channels := out_channels c;
              kernel_size := kernel_size c; stride := stride c;
              padding := padding c; dilation := dilation c;
              conv_weight := conv_weight c; conv_bias := Some v |}
  | BatchNorm b =>
      BatchNorm {| num_features := num_features b; momentum := momentum b;
                   affine := affine b; eps := eps b;
                   bn_weight := bn_weight b; bn_bias := v |}
  | _ => m
  end.

(** [_weights_init(module, conv_weight_init_fn)] on a leaf module.  The
    initialisers write into the parameter in place. *)
Definition weights_init (module : layer) (conv_weight_init_fn : W -> W)
  : result layer :=
  let classname := class_name module in
  match weights_init_case classname with
  | InitConv =>
      w <- get_weight module ;;
      let module := set_weight (conv_weight_init_fn w) module in
      b <- get_bias module ;;
      match b with
      | Some b => Ok (set_bias (constant_ b 0) module)
      | None => Ok module
      end
  | InitBatchNorm =>
      w <- get_weight module ;;
      let module := set_weight (constant_ w 1) module in
      b <- get_bias module ;;
      match b with
      | Some b => Ok (set_bias (constant_ b 0) module)
      | None => Raise (AttributeError "fill_")
      end
  | InitNone => Ok module
  end.

(** [_weights_init] on a container ([_ResidualBlock], [Sequential],
    [EEGResNet]), which has no attribute [weight]. *)
Definition weights_init_container (classname : string) : result unit :=
  match weights_init_case classname with
  | InitNone => Ok tt
  | _ => Raise (AttributeError "weight")
  end.

(** [nn.Module.apply(fn)]: the children first, in order of registration,
    then the module itself. *)
Definition apply_block (fn : layer -> result layer) (b : ResidualBlock)
  : result ResidualBlock :=
  c1 <- fn (conv_1 b) ;;
  b1 <- fn (bn1 b) ;;
  c2 <- fn (conv_2 b) ;;
  b2 <- fn (bn2 b) ;;
  nl <- fn (nonlinearity b) ;;
  weights_init_container "_ResidualBlock" ;;;
  Ok {| n_pad_chans := n_pad_chans b; conv_1 := c1; bn1 := b1;
        conv_2 := c2; bn2 := b2; nonlinearity := nl |}.

Fixpoint apply_each {M : Type} (f : M -> result M) (ms : list (string * M))
  : result (list (string * M)) :=
  match ms with
  | [] => Ok []
  | (n, m) :: rest =>
      m' <- f m ;; rest' <- apply_each f rest ;; Ok ((n, m') :: rest')
  end.

Definition apply_module (fn : layer -> result layer) (m : module)
  : result module :=
  match m with
  | Layer l => l' <- fn l ;; Ok (Layer l')
  | Block b => b' <- apply_block fn b ;; Ok (Block b')
  | Sequential cs =>
      cs' <- apply_each fn cs ;;
      weights_init_container "Sequential" ;;;
      Ok (Sequential cs')
  end.

(** ** EEGResNet *)

(** [final_pool_length]: the string ["auto"] or an integer. *)
Inductive pool_length : Type := Auto | Length (n : Z).

(** The constructor's arguments; [n_chans], [n_outputs] and [n_times] are
    what the mixin [EEGModuleMixin] holds under those names once
    [super().__init__] has returned: a number of channels and a number of
    outputs, and a time length or [None] (not given and not to be
    inferred); [activation] is the class, known by its name. *)
Record Args : Type := mkArgs {
  n_chans : Z;
  n_outputs : Z;
  n_times : option Z;
  final_pool_length : pool_length;
  n_first_filters : Z;
  n_layers_per_block : Z;
  first_filter_length : Z;
  activation : string;
  split_first_layer : bool;
  batch_norm_alpha : Q;
  batch_norm_epsilon : Q;
  conv_weight_init_fn : W -> W
}.

(** The constructed object: the arguments it stores as attributes
    ([self.final_pool_length = final_pool_length] and so on), the table
    [mapping], its named children and the mode flag. *)
Record EEGResNet : Type := mkEEGResNet {
  attrs : Args;
  mapping : list (string * string);
  _modules : list (string * module);
  training : bool
}.

(** [self.add_module(name, _ResidualBlock(i, o, dilation=cur_dilation))] *)
Definition add_res (name : string) (in_filters out_num_filters : Z)
    (cur_dilation : Z * Z) (ms : list (string * module))
  : result (list (string * module)) :=
  b <- ResidualBlock_default in_filters out_num_filters cur_dilation ;;
  Ok (add_module name (Block b) ms).

(** [for i_layer in range(lo, hi): self.add_module("res_{:d}_{:d}".format(
    i_block, i_layer), _ResidualBlock(n_cur_filters, n_cur_filters,
    dilation=cur_dilation))] *)
Definition res_units (i_block lo hi n_cur_filters : Z) (cur_dilation : Z * Z)
    (ms : list (string * module)) : result (list (string * module)) :=
  for_each (range lo hi)
    (fun i_layer ms =>
       add_res (res_name i_block i_layer) n_cur_filters n_cur_filters
         cur_dilation ms)
    ms.

(** [cur_dilation[0] *= 2] on the integer array [np.array([1, 1])] *)
Definition double_time (cur_dilation : Z * Z) : Z * Z :=
  (imul64 (fst cur_dilation) 2, snd cur_dilation).

Definition is_some {A : Type} (o : option A) : bool :=
  match o with Some _ => true | None => false end.

(** The table [self.mapping]. *)
Definition the_mapping : list (string * string) :=
  [("conv_classifier.weight", "final_layer.conv_classifier.weight");
   ("conv_classifier.bias", "final_layer.conv_classifier.bias")].

(** Modelled from the spec: the attribute [n_times] of the mixin
    [EEGModuleMixin] of [braindecode.models.base], which this file inherits
    and does not define.  The specification has the mixin supply validated
    fields: the attribute yields the time length the mixin holds, and
    raises a [ValueError] (whose message is not modelled) when it holds
    none; it never yields [None]. *)
Definition self_n_times (a : Args) : result (option Z) :=
  match n_times a with
  | Some t => Ok (Some t)
  | None => Raise ValueError
  end.

(** [EEGResNet.__init__].  The calls [self.eval()] before the pooling stage
    and [self.train()] at the end set the mode flag, which ends [True]. *)
Definition EEGResNet_init (a : Args) : result EEGResNet :=
  match final_pool_length a with
  | Auto => t <- self_n_times a ;; assert (is_some t) ""
  | Length _ => Ok tt
  end ;;;
  assert (first_filter_length a mod 2 =? 1) "" ;;;
  let ms := add_module "ensuredims" (Layer (Helper Ensure4d)) [] in
  ms <-
    (if split_first_layer a then
       let ms := add_module "dimshuffle"
                   (Layer (Rearrange "batch C T 1 -> batch 1 T C")) ms in
       conv_time <- nn_Conv2d 1 (n_first_filters a)
                      (first_filter_length a, 1) (1, 1)
                      (first_filter_length a / 2, 0) (1, 1) true ;;
       let ms := add_module "conv_time" (Layer (Conv conv_time)) ms in
       conv_spat <- nn_Conv2d (n_first_filters a) (n_first_filters a)
                      (1, n_chans a) (1, 1) (0, 0) (1, 1) false ;;
       Ok (add_module "conv_spat" (Layer (Conv conv_spat)) ms)
     else
       conv_time <- nn_Conv2d (n_chans a) (n_first_filters a)
                      (first_filter_length a, 1) (1, 1)
                      (first_filter_length a / 2, 0) (1, 1) false ;;
       Ok (add_module "conv_time" (Layer (Conv conv_time)) ms)) ;;
  let n_filters_conv := n_first_filters a in
  let ms := add_module "bnorm"
              (Layer (BatchNorm (nn_BatchNorm2d n_filters_conv
                                   (batch_norm_alpha a) (1 # 100000)%Q))) ms in
  let ms := add_module "conv_nonlin" (Layer (Activation (activation a))) ms in
  let cur_dilation := (1, 1) in
  let n_cur_filters := n_filters_conv in
  let i_block := 1 in
  ms <- res_units i_block 0 (n_layers_per_block a) n_cur_filters cur_dilation ms ;;
  let i_block := i_block + 1 in
  let cur_dilation := double_time cur_dilation in
  let n_out_filters := int_2_times n_cur_filters in
  ms <- add_res (res_name i_block 0) n_cur_filters n_out_filters cur_dilation ms ;;
  let n_cur_filters := n_out_filters in
  ms <- res_units i_block 1 (n_layers_per_block a) n_cur_filters cur_dilation ms ;;
  let i_block := i_block + 1 in
  let cur_dilation := double_time cur_dilation in
  let n_out_filters := int_1_5_times n_cur_filters in
  ms <- add_res (res_name i_block 0) n_cur_filters n_out_filters cur_dilation ms ;;
  let n_cur_filters := n_out_filters in
  ms <- res_units i_block 1 (n_layers_per_block a) n_cur_filters cur_dilation ms ;;
  let i_block := i_block + 1 in
  let cur_dilation := double_time cur_dilation in
  ms <- add_res (res_name i_block 0) n_cur_filters n_cur_filters cur_dilation ms ;;
  ms <- res_units i_block 1 (n_layers_per_block a) n_cur_filters cur_dilation ms ;;
  let i_block := i_block + 1 in
  let cur_dilation := double_time cur_dilation in
  ms <- add_res (res_name i_block 0) n_cur_filters n_cur_filters cur_dilation ms ;;
  ms <- res_units i_block 1 (n_layers_per_block a) n_cur_filters cur_dilation ms ;;
  let i_block := i_block + 1 in
  let cur_dilation := double_time cur_dilation in
  ms <- add_res (res_name i_block 0) n_cur_filters n_cur_filters cur_dilation ms ;;
  ms <- res_units i_block 1 (n_layers_per_block a) n_cur_filters cur_dilation ms ;;
  let i_block := i_block + 1 in
  let cur_dilation := double_time cur_dilation in
  ms <- add_res (res_name i_block 0) n_cur_filters n_cur_filters cur_dilation ms ;;
  ms <- res_units i_block 1 (n_layers_per_block a) n_cur_filters cur_dilation ms ;;
  let ms :=
    match final_pool_length a with
    | Auto => add_module "mean_pool" (Layer (AdaptiveAvgPool2d (1, 1))) ms
    | Length n =>
        let pool_dilation := (fst cur_dilation, snd cur_dilation) in
        add_module "mean_pool"
          (Layer (Helper (AvgPool2dWithConv (n, 1) (1, 1) pool_dilation))) ms
    end in
  let module := [] in
  conv_classifier <- nn_Conv2d n_cur_filters (n_outputs a) (1, 1) (1, 1)
                       (0, 0) (1, 1) true ;;
  let module := add_module "conv_classifier" (Conv conv_classifier) module in
  let module := add_module "squeeze" (Helper SqueezeFinalOutput) module in
  let ms := add_module "final_layer" (Sequential module) ms in
  ms <- apply_each
          (apply_module (fun m => weights_init m (conv_weight_init_fn a))) ms ;;
  weights_init_container "EEGResNet" ;;;
  Ok {| attrs := a;
        mapping := the_mapping;
        _modules := ms;
        training := true |}.

(** ** Reading a constructed model *)

(** Input and output channel counts of a block, read off its convolutions. *)
Definition block_channels (b : ResidualBlock) : option (Z * Z) :=
  match conv_1 b, conv_2 b with
  | Conv c1, Conv c2 => Some (in_channels c1, out_channels c2)
  | _, _ => None
  end.

(** The dilation pair of both convolutions of a block. *)
Definition block_dilation (b : ResidualBlock) : option (Z * Z) :=
  match conv_1 b, conv_2 b with
  | Conv c1, Conv c2 =>
      if (fst (dilation c1) =? fst (dilation c2))
         && (snd (dilation c1) =? snd (dilation c2))
      then Some (dilation c1) else None
  | _, _ => None
  end.

(** The block registered as [res_{b}_{k}]. *)
Definition res_at (m : EEGResNet) (b k : Z) : option ResidualBlock :=
  match get_module (res_name b k) (_modules m) with
  | Some (Block blk) => Some blk
  | _ => None
  end.

Definition opt_bind {A B : Type} (o : option A) (f : A -> option B) : option B :=
  match o with Some a => f a | None => None end.

Definition channels_at (m : EEGResNet) (b k : Z) : option (Z * Z) :=
  opt_bind (res_at m b k) block_channels.

Definition dilation_at (m : EEGResNet) (b k : Z) : option (Z * Z) :=
  opt_bind (res_at m b k) block_dilation.

(** The units the constructor builds with [L] layers per block: units
    [range(L)] of block 1; unit 0 and units [range(1, L)] of blocks 2 to 7. *)
Definition is_unit (L b k : Z) : Prop :=
  (b = 1 /\ 0 <= k < L) \/ (2 <= b <= 7 /\ (k = 0 \/ 1 <= k < L)).

(** A leaf module as [_weights_init] is to leave it: a batch normalisation
    with scale 1 and shift 0; a convolution with its weight passed through
    the initialiser [f] and its bias, if any, 0. *)
Definition initialised_as (f : W -> W) (l : layer) : Prop :=
  match l with
  | BatchNorm b =>
      bn_weight b = constant_ (fresh_param [num_features b]) 1
      /\ bn_bias b = constant_ (fresh_param [num_features b]) 0
  | Conv c =>
      conv_weight c
      = f (fresh_param [out_channels c; in_channels c;
                        fst (kernel_size c); snd (kernel_size c)])
      /\ (conv_bias c = None
          \/ conv_bias c = Some (constant_ (fresh_param [out_channels c]) 0))
  | _ => True
  end.

(** [self.modules()] without the containers: every leaf module of the tree. *)
Definition module_layers (m : module) : list layer :=
  match m with
  | Layer l => [l]
  | Block b => [conv_1 b; bn1 b; conv_2 b; bn2 b; nonlinearity b]
  | Sequential cs => map snd cs
  end.

Definition all_layers (m : EEGResNet) : list layer :=
  flat_map (fun nm => module_layers (snd nm)) (_modules m).

(** The named children of a construction, or its exception. *)
Definition modules_of (r : result EEGResNet) : result (list (string * module)) :=
  match r with
  | Ok m => Ok (_modules m)
  | Raise e => Raise e
  end.

(** The same arguments with another [batch_norm_epsilon], and with another
    [activation]. *)
Definition with_batch_norm_epsilon (e : Q) (a : Args) : Args :=
  {| n_chans := n_chans a; n_outputs := n_outputs a; n_times := n_times a;
     final_pool_length := final_pool_length a;
     n_first_filters := n_first_filters a;
     n_layers_per_block := n_layers_per_block a;
     first_filter_length := first_filter_length a;
     activation := activation a; split_first_layer := split_first_layer a;
     batch_norm_alpha := batch_norm_alpha a; batch_norm_epsilon := e;
     conv_weight_init_fn := conv_weight_init_fn a |}.

Definition with_activation (cls : string) (a : Args) : Args :=
  {| n_chans := n_chans a; n_outputs := n_outputs a; n_times := n_times a;
     final_pool_length := final_pool_length a;
     n_first_filters := n_first_filters a;
     n_layers_per_block := n_layers_per_block a;
     first_filter_length := first_filter_length a;
     activation := cls; split_first_layer := split_first_layer a;
     batch_norm_alpha := batch_norm_alpha a;
     batch_norm_epsilon := batch_norm_epsilon a;
     conv_weight_init_fn := conv_weight_init_fn a |}.

(** ** The list of children in closed form

    The definitions below describe, as one list, what the constructor
    registers when nothing is raised; the theorems relate them to
    [EEGResNet_init]. *)

(** The block [_ResidualBlock(i, o, dilation=d)] once it is built. *)
Definition res_block (i o : Z) (d : Z * Z) : ResidualBlock :=
  let time_padding := imul64 (3 - 1) (fst d) / 2 in
  {| n_pad_chans := o - i;
     conv_1 := Conv (built_Conv2d i o (3, 1) (1, 1) (time_padding, 0)
                       (fst d, snd d) true);
     bn1 := BatchNorm (nn_BatchNorm2d o (1 # 10)%Q (1 # 10000)%Q);
     conv_2 := Conv (built_Conv2d o o (3, 1) (1, 1) (time_padding, 0)
                       (fst d, snd d) true);
     bn2 := BatchNorm (nn_BatchNorm2d o (1 # 10)%Q (1 # 10000)%Q);
     nonlinearity := Activation "ELU" |}.

(** What [_weights_init] leaves of a leaf module whose class name selects
    the matching branch. *)
Definition initialised (f : W -> W) (l : layer) : layer :=
  match l with
  | Conv c =>
      let l := set_weight (f (conv_weight c)) l in
      match conv_bias c with
      | Some b => set_bias (constant_ b 0) l
      | None => l
      end
  | BatchNorm b => set_bias (constant_ (bn_bias b) 0)
                     (set_weight (constant_ (bn_weight b) 1) l)
  | _ => l
  end.

Definition initialised_module (f : W -> W) (m : module) : module :=
  match m with
  | Layer l => Layer (initialised f l)
  | Block b =>
      Block {| n_pad_chans := n_pad_chans b;
               conv_1 := initialised f (conv_1 b);
               bn1 := initialised f (bn1 b);
               conv_2 := initialised f (conv_2 b);
               bn2 := initialised f (bn2 b);
               nonlinearity := initialised f (nonlinearity b) |}
  | Sequential cs => Sequential (map (fun nl => (fst nl, initialised f (snd nl))) cs)
  end.

(** Unit indices of block [b]: [range(L)] in block 1, unit 0 followed by
    [range(1, L)] in the later blocks. *)
Definition unit_indices (b L : Z) : list Z :=
  if b =? 1 then range 0 L else 0 :: range 1 L.

Definition block_keys (L : Z) : list (Z * Z) :=
  flat_map (fun b => map (pair b) (unit_indices b L)) [1; 2; 3; 4; 5; 6; 7].

(** Channel count at the output of block [b], from [n] first filters. *)
Definition width_after (n b : Z) : Z :=
  if b <=? 1 then n
  else if b =? 2 then int_2_times n
  else int_1_5_times (int_2_times n).

Definition chan_in (n b k : Z) : Z :=
  if k =? 0 then width_after n (b - 1) else width_after n b.

(** [cur_dilation] while block [b] is built. *)
Definition dilation_of_block (b : Z) : Z * Z :=
  Nat.iter (Z.to_nat (b - 1)) double_time (1, 1).

Definition res_entry (n : Z) (bk : Z * Z) : string * module :=
  (res_name (fst bk) (snd bk),
   Block (res_block (chan_in n (fst bk) (snd bk)) (width_after n (fst bk))
            (dilation_of_block (fst bk)))).

Definition entry_name (bk : Z * Z) : string := res_name (fst bk) (snd bk).

Definition head_modules (a : Args) : list (string * module) :=
  [("ensuredims", Layer (Helper Ensure4d))]
  ++ (if split_first_layer a then
        [("dimshuffle", Layer (Rearrange "batch C T 1 -> batch 1 T C"));
         ("conv_time",
          Layer (Conv (built_Conv2d 1 (n_first_filters a)
                         (first_filter_length a, 1) (1, 1)
                         (first_filter_length a / 2, 0) (1, 1) true)));
         ("conv_spat",
          Layer (Conv (built_Conv2d (n_first_filters a) (n_first_filters a)
                         (1, n_chans a) (1, 1) (0, 0) (1, 1) false)))]
      else
        [("conv_time",
          Layer (Conv (built_Conv2d (n_chans a) (n_first_filters a)
                         (first_filter_length a, 1) (1, 1)
                         (first_filter_length a / 2, 0) (1, 1) false)))])
  ++ [("bnorm",
       Layer (BatchNorm (nn_BatchNorm2d (n_first_filters a)
                           (batch_norm_alpha a) (1 # 100000)%Q)));
      ("conv_nonlin", Layer (Activation (activation a)))].

Definition tail_modules (a : Args) : list (string * module) :=
  [("mean_pool",
    match final_pool_length a with
    | Auto => Layer (AdaptiveAvgPool2d (1, 1))
    | Length n =>
        Layer (Helper (AvgPool2dWithConv (n, 1) (1, 1) (dilation_of_block 7)))
    end);
   ("final_layer",
    Sequential
      [("conv_classifier",
        Conv (built_Conv2d (width_after (n_first_filters a) 7) (n_outputs a)
                (1, 1) (1, 1) (0, 0) (1, 1) true));
       ("squeeze", Helper SqueezeFinalOutput)])].

Definition raw_modules (a : Args) : list (string * module) :=
  head_modules a
  ++ map (res_entry (n_first_filters a)) (block_keys (n_layers_per_block a))
  ++ tail_modules a.

Definition final_modules (a : Args) : list (string * module) :=
  map (fun nm => (fst nm, initialised_module (conv_weight_init_fn a) (snd nm)))
    (raw_modules a).

(** The residual blocks the constructor asks for, in order: the name and
    the arguments [(in_filters, out_num_filters, dilation)] of each call
    [self.add_module(name, _ResidualBlock(...))]. *)
Definition block_request (n : Z) (bk : Z * Z) : string * (Z * Z * (Z * Z)) :=
  (res_name (fst bk) (snd bk),
   (chan_in n (fst bk) (snd bk), width_after n (fst bk),
    dilation_of_block (fst bk))).

Definition requested_blocks (a : Args) : list (string * (Z * Z * (Z * Z))) :=
  map (block_request (n_first_filters a)) (block_keys (n_layers_per_block a)).

Fixpoint register_all (reqs : list (string * (Z * Z * (Z * Z))))
    (ms : list (string * module)) : result (list (string * module)) :=
  match reqs with
  | [] => Ok ms
  | (name, (i, o, d)) :: rest =>
      ms' <- add_res name i o d ms ;; register_all rest ms'
  end.

Definition request_rest (n b L : Z) : list (string * (Z * Z * (Z * Z))) :=
  map (fun k => (res_name b k,
                 (width_after n b, width_after n b, dilation_of_block b)))
    (range 1 L).

Definition request_first (n b : Z) : string * (Z * Z * (Z * Z)) :=
  (res_name b 0,
   (width_after n (b - 1), width_after n b, dilation_of_block b)).

(** Registering a list of children one after the other. *)
Definition add_all {M : Type} (es : list (string * M)) (ms : list (string * M))
  : list (string * M) :=
  fold_left (fun acc e => add_module (fst e) (snd e) acc) es ms.

(** The first layers (from [ensuredims] to [conv_nonlin]) and the last
    ones (the pooling and the final layer) as two steps of the constructor,
    the residual blocks being registered in between. *)
Definition first_layers (a : Args) : result (list (string * module)) :=
  let ms := add_module "ensuredims" (Layer (Helper Ensure4d)) [] in
  ms <-
    (if split_first_layer a then
       let ms := add_module "dimshuffle"
                   (Layer (Rearrange "batch C T 1 -> batch 1 T C")) ms in
       conv_time <- nn_Conv2d 1 (n_first_filters a)
                      (first_filter_length a, 1) (1, 1)
                      (first_filter_length a / 2, 0) (1, 1) true ;;
       let ms := add_module "conv_time" (Layer (Conv conv_time)) ms in
       conv_spat <- nn_Conv2d (n_first_filters a) (n_first_filters a)
                      (1, n_chans a) (1, 1) (0, 0) (1, 1) false ;;
       Ok (add_module "conv_spat" (Layer (Conv conv_spat)) ms)
     else
       conv_time <- nn_Conv2d (n_chans a) (n_first_filters a)
                      (first_filter_length a, 1) (1, 1)
                      (first_filter_length a / 2, 0) (1, 1) false ;;
       Ok (add_module "conv_time" (Layer (Conv conv_time)) ms)) ;;
  let ms := add_module "bnorm"
              (Layer (BatchNorm (nn_BatchNorm2d (n_first_filters a)
                                   (batch_norm_alpha a) (1 # 100000)%Q))) ms in
  Ok (add_module "conv_nonlin" (Layer (Activation (activation a))) ms).

Definition last_layers (a : Args) (ms : list (string * module))
  : result (list (string * module)) :=
  let ms :=
    match final_pool_length a with
    | Auto => add_module "mean_pool" (Layer (AdaptiveAvgPool2d (1, 1))) ms
    | Length n =>
        add_module "mean_pool"
          (Layer (Helper (AvgPool2dWithConv (n, 1) (1, 1)
                            (dilation_of_block 7)))) ms
    end in
  conv_classifier <- nn_Conv2d (width_after (n_first_filters a) 7)
                       (n_outputs a) (1, 1) (1, 1) (0, 0) (1, 1) true ;;
  Ok (add_module "final_layer"
        (Sequential
           (add_module "squeeze" (Helper SqueezeFinalOutput)
              (add_module "conv_classifier" (Conv conv_classifier) [])))
        ms).

(** The block built for a request. *)
Definition requested_entry (r : string * (Z * Z * (Z * Z))) : string * module :=
  (fst r, Block (res_block (fst (fst (snd r))) (snd (fst (snd r)))
                   (snd (snd r)))).

(** The message of the assertion on the channel counts of a block. *)
Definition need_even_message : string :=
  "Need even number of extra channels in order to be able to pad correctly".

(** Whether the time length is there when the constructor reads it. *)
Definition time_known (a : Args) : bool :=
  match final_pool_length a with
  | Auto => is_some (n_times a)
  | Length _ => true
  end.

(** The exception of the constructor before it initialises the weights,
    in the order the checks are met: the time length read from the mixin
    under automatic pooling; the odd first filter length; the sizes of the
    first convolution (or two); the even number of first filters (the
    channel delta of the first unit of block 2, and of block 3); the size
    of the classifier. *)
Definition construction_error (a : Args) : option exn :=
  if negb (time_known a) then Some ValueError
  else if negb (first_filter_length a mod 2 =? 1) then Some (AssertionError "")
  else if (n_first_filters a <? 0) || (first_filter_length a <? 0)
          || (n_chans a <? 0)
  then Some (RuntimeError "negative dimension")
  else if negb (n_first_filters a mod 2 =? 0)
  then Some (AssertionError need_even_message)
  else if n_outputs a <? 0 then Some (RuntimeError "negative dimension")
  else None.

(** ** Further readings of a constructed model *)

(** The residual blocks among the children, in order. *)
Definition residual_blocks (m : EEGResNet) : list ResidualBlock :=
  flat_map (fun nm => match snd nm with Block b => [b] | _ => [] end)
    (_modules m).

(** Whether a leaf module is a convolution built with [bias=False]. *)
Definition bias_free (l : layer) : bool :=
  match l with
  | Conv c => match conv_bias c with None => true | Some _ => false end
  | _ => false
  end.

(** A leaf module without the contents of its parameters: its class, its
    constructor arguments and whether it has a bias. *)
Definition erase_params (l : layer) : layer :=
  match l with
  | Conv c =>
      Conv {| in_channels := in_channels c; out_channels := out_channels c;
              kernel_size := kernel_size c; stride := stride c;
              padding := padding c; dilation := dilation c;
              conv_weight := fresh_param [];
              conv_bias := match conv_bias c with
                           | Some _ => Some (fresh_param [])
                           | None => None
                           end |}
  | BatchNorm b =>
      BatchNorm {| num_features := num_features b; momentum := momentum b;
                   affine := affine b; eps := eps b;
                   bn_weight := fresh_param []; bn_bias := fresh_param [] |}
  | _ => l
  end.

(** The same arguments with another [batch_norm_alpha]. *)
Definition with_batch_norm_alpha (alpha : Q) (a : Args) : Args :=
  {| n_chans := n_chans a; n_outputs := n_outputs a; n_times := n_times a;
     final_pool_length := final_pool_length a;
     n_first_filters := n_first_filters a;
     n_layers_per_block := n_layers_per_block a;
     first_filter_length := first_filter_length a;
     activation := activation a; split_first_layer := split_first_layer a;
     batch_norm_alpha := alpha;
     batch_norm_epsilon := batch_norm_epsilon a;
     conv_weight_init_fn := conv_weight_init_fn a |}.

(** The names of the residual units in the order of the constructor, for
    [L] layers per block. *)
Definition res_names (L : Z) : list string :=
  map (res_name 1) (range 0 L)
  ++ flat_map (fun b => res_name b 0 :: map (res_name b) (range 1 L))
       [2; 3; 4; 5; 6; 7].

End Net.

(** ** Tensors and the forward pass of a residual block *)

(** A rank-4 tensor [batch][channel][time][width] over a scalar type.  A
    torch tensor is rectangular; its shape is read off the first entry of
    each axis. *)
Definition tensor (R : Type) : Type := list (list (list (list R))).

(** The framework's tensor operators: the scalars with their zero, calling
    a layer on a tensor, and [x + y] on tensors. *)
Class TensorOps `{ParamOps} : Type := {
  R : Type;
  rzero : R;
  call : layer -> tensor R -> tensor R;
  tadd : tensor R -> tensor R -> tensor R
}.

Section Forward.

Context `{TensorOps}.

Definition shape0 (x : tensor R) : Z := Z.of_nat (List.length x).
Definition shape1 (x : tensor R) : Z := Z.of_nat (List.length (hd [] x)).
Definition shape2 (x : tensor R) : Z := Z.of_nat (List.length (hd [] (hd [] x))).
Definition shape3 (x : tensor R) : Z :=
  Z.of_nat (List.length (hd [] (hd [] (hd [] x)))).

(** [x.new_zeros((n, c, h, w))]: a tensor R of zeros; a negative size is an
    error of the framework. *)
Definition new_zeros (n c h w : Z) : result (tensor R) :=
  if (n <? 0) || (c <? 0) || (h <? 0) || (w <? 0)
  then Raise (RuntimeError "negative dimension")
  else Ok (repeat (repeat (repeat (repeat rzero (Z.to_nat w)) (Z.to_nat h))
                     (Z.to_nat c)) (Z.to_nat n)).

(** [torch.cat((a, b, c), dim=1)]: sizes must agree on every axis but the
    channel axis; per sample the channel lists are appended. *)
Definition cat_dim1 (a b c : tensor R) : result (tensor R) :=
  if (shape0 a =? shape0 b) && (shape0 b =? shape0 c)
     && (shape2 a =? shape2 b) && (shape2 b =? shape2 c)
     && (shape3 a =? shape3 b) && (shape3 b =? shape3 c)
  then Ok (map (fun s => fst s ++ fst (snd s) ++ snd (snd s))
             (combine a (combine b c)))
  else Raise (RuntimeError "Sizes of tensors must match except in dimension 1").

(** The skip path of [_ResidualBlock.forward] (the [if] statement). *)
Definition pad_skip (self : ResidualBlock) (x : tensor R) : result (tensor R) :=
  if negb (n_pad_chans self =? 0) then
    zeros_for_padding <-
      new_zeros (shape0 x) (n_pad_chans self / 2) (shape2 x) (shape3 x) ;;
    cat_dim1 zeros_for_padding x zeros_for_padding
  else Ok x.

(** [_ResidualBlock.forward] *)
Definition forward (self : ResidualBlock) (x : tensor R) : result (tensor R) :=
  let stack_1 := call (nonlinearity self) (call (bn1 self) (call (conv_1 self) x)) in
  let stack_2 := call (bn2 self) (call (conv_2 self) stack_1) in
  x <- pad_skip self x ;;
  let out := call (nonlinearity self) (tadd x stack_2) in
  Ok out.

(** The skip tensor R in the words of the specification: the input itself
    when the channel counts agree, otherwise the input with
    [(out - in) / 2] all-zero channels on each side of the channel axis. *)
Definition zero_channels (k : Z) (x : tensor R) : list (list (list R)) :=
  repeat (repeat (repeat rzero (Z.to_nat (shape3 x))) (Z.to_nat (shape2 x)))
    (Z.to_nat k).

Definition spec_skip (in_filters out_num_filters : Z) (x : tensor R) : tensor R :=
  if out_num_filters =? in_filters then x
  else
    let k := (out_num_filters - in_filters) / 2 in
    map (fun sample => zero_channels k x ++ sample ++ zero_channels k x) x.

(** The residual branch in the words of the specification:
    B = batchnorm2(conv2(nonlinearity(batchnorm1(conv1(x))))). *)
Definition spec_branch (self : ResidualBlock) (x : tensor R) : tensor R :=
  call (bn2 self) (call (conv_2 self)
    (call (nonlinearity self) (call (bn1 self) (call (conv_1 self) x)))).

End Forward.

(** ** A concrete instance

    Parameter contents as the history of what was written into them, and
    integer scalars.  In this instance a convolution copies the first
    channel of each sample to every output channel, the other layers are
    the identity, and tensors add entry by entry. *)

Inductive sym_param : Type :=
| Fresh (shape : list Z)
| Filled (w : sym_param) (c : Z)
| Kaiming (w : sym_param).

#[export] Instance sym_ops : ParamOps :=
  {| W := sym_param; fresh_param := Fresh; constant_ := Filled |}.

Definition zip_with {A B C : Type} (f : A -> B -> C) (xs : list A)
    (ys : list B) : list C :=
  map (fun p => f (fst p) (snd p)) (combine xs ys).

#[export] Instance int_tensors : TensorOps :=
  {| R := Z; rzero := 0;
     call := fun l x =>
       match l with
       | Conv c =>
           map (fun sample =>
                  repeat (hd [] sample) (Z.to_nat (out_channels c))) x
       | _ => x
       end;
     tadd := zip_with (zip_with (zip_with (zip_with Z.add))) |}.

(** The constructor's default hyperparameters, for [n_chans] channels,
    [n_outputs] classes and [n_times] samples, with the given
    [final_pool_length]. *)
Definition default_args (n_chans n_outputs : Z) (n_times : option Z)
    (final_pool_length : pool_length) : Args :=
  {| n_chans := n_chans; n_outputs := n_outputs; n_times := n_times;
     final_pool_length := final_pool_length; n_first_filters := 20;
     n_layers_per_block := 2; first_filter_length := 3;
     activation := "ELU"; split_first_layer := true;
     batch_norm_alpha := (1 # 10)%Q; batch_norm_epsilon := (1 # 10000)%Q;
     conv_weight_init_fn := Kaiming |}.

(** Two configurations used as examples: 22 channels, 4 classes, 1000
    samples, with automatic pooling and with a pooling length of 10. *)
Definition example_args : Args := default_args 22 4 (Some 1000) Auto.
Definition example_args_pool : Args := default_args 22 4 (Some 1000) (Length 10).

(** The object the constructor returns when it raises nothing. *)
Definition constructed (a : Args) : EEGResNet :=
  {| attrs := a; mapping := the_mapping; _modules := final_modules a;
     training := true |}.

(** Further configurations: without [split_first_layer], with an odd
    number of first filters, with no layer per block, and with a negative
    (and odd) number of first filters. *)
Definition example_args_single : Args :=
  mkArgs 22 4 (Some 1000) Auto 20 2 3 "ELU" false (1 # 10)%Q (1 # 10000)%Q
    Kaiming.
Definition example_args_odd : Args :=
  mkArgs 22 4 (Some 1000) Auto 21 2 3 "ELU" true (1 # 10)%Q (1 # 10000)%Q
    Kaiming.
Definition example_args_no_layers : Args :=
  mkArgs 22 4 (Some 1000) Auto 20 0 3 "ELU" true (1 # 10)%Q (1 # 10000)%Q
    Kaiming.
Definition example_args_negative : Args :=
  mkArgs 22 4 (Some 1000) Auto (-3) 2 3 "ELU" true (1 # 10)%Q (1 # 10000)%Q
    Kaiming.

(** The first unit of block 2 of the example model, from 20 to 40
    channels. *)
Definition example_model_block : ResidualBlock :=
  match res_at (constructed example_args) 2 0 with
  | Some blk => blk
  | None => res_block 20 40 (2, 1)
  end.

(** A block from 1 to 3 channels and an input of one sample with one
    channel of 2 time steps and width 2. *)
Definition example_block : ResidualBlock := res_block 1 3 (1, 1).
Definition example_input : tensor Z := [[[[1; 2]; [3; 4]]]].

(** An input of one sample with 20 channels of 2 time steps and width 2,
    as the first unit of block 2 of the example model takes it. *)
Definition example_input_wide : tensor Z := [repeat [[1; 2]; [3; 4]] 20].

(** * Facts about names *)

Lemma parse_format_d (z : Z) : parse_d (format_d z) = Some z.
Proof.
  unfold parse_d, format_d.
  pose proof (DecimalZ.of_to z) as HZ.
  destruct (Z.to_int z) as [u | u]; destruct u;
    try (rewrite NilZero.isi by discriminate; unfold option_map;
         f_equal; exact HZ).
  - rewrite NilZero.isi_posnil. unfold option_map. f_equal. exact HZ.
  - rewrite NilZero.isi_negnil. unfold option_map. f_equal. exact HZ.
Qed.

Lemma format_d_inj (z1 z2 : Z) : format_d z1 = format_d z2 -> z1 = z2.
Proof.
  intros E. pose proof (parse_format_d z1) as P1.
  rewrite E, parse_format_d in P1. congruence.
Qed.

Lemma no_underscore_uint (u : uint) :
  no_underscore (NilEmpty.string_of_uint u) = true.
Proof. induction u; simpl; auto. Qed.

Lemma no_underscore_format_d (z : Z) : no_underscore (format_d z) = true.
Proof.
  unfold format_d.
  destruct (Z.to_int z) as [u | u]; destruct u; simpl;
    auto using no_underscore_uint.
Qed.

Lemma split_at_underscore (s1 s2 t1 t2 : string) :
  no_underscore s1 = true -> no_underscore s2 = true ->
  (s1 ++ "_" ++ t1 = s2 ++ "_" ++ t2)%string -> s1 = s2 /\ t1 = t2.
Proof.
  revert s2. induction s1 as [| c s1 IH]; intros [| c2 s2] N1 N2 E; simpl in *.
  - injection E as E. auto.
  - injection E as Ec E. subst c2. discriminate N2.
  - injection E as Ec E. subst c. discriminate N1.
  - injection E as Ec E. subst c2.
    apply andb_prop in N1 as [_ N1]. apply andb_prop in N2 as [_ N2].
    destruct (IH s2 N1 N2 E) as [-> ->]. auto.
Qed.

Lemma res_name_inj (b1 k1 b2 k2 : Z) :
  res_name b1 k1 = res_name b2 k2 -> b1 = b2 /\ k1 = k2.
Proof.
  unfold res_name. simpl. intros E. injection E as E.
  apply split_at_underscore in E; auto using no_underscore_format_d.
  destruct E as [Eb Ek]. split; apply format_d_inj; assumption.
Qed.

(** Every block name starts with [res_]; none of the other names does. *)
Lemma res_name_head (b k : Z) :
  res_name b k
  = String "r" (String "e" (String "s" (String "_"
      (format_d b ++ "_" ++ format_d k)%string))).
Proof. reflexivity. Qed.

(** * Facts about lists of named children *)

Lemma range_nodup (lo hi : Z) : NoDup (range lo hi).
Proof.
  unfold range. apply Injective_map_NoDup.
  - intros x y E. lia.
  - apply seq_NoDup.
Qed.

Lemma in_range (lo hi k : Z) : In k (range lo hi) <-> lo <= k < hi.
Proof.
  unfold range. rewrite in_map_iff. split.
  - intros [j [<- Hj]]. apply in_seq in Hj. lia.
  - intros Hk. exists (Z.to_nat (k - lo)). split; [lia |].
    apply in_seq. lia.
Qed.

Lemma add_module_fresh {M : Type} (name : string) (m : M) ms :
  ~ In name (map fst ms) -> add_module name m ms = ms ++ [(name, m)].
Proof.
  induction ms as [| [n x] ms IH]; simpl; intros Hn; [reflexivity |].
  destruct (String.eqb_spec n name) as [-> | Hne].
  - exfalso. apply Hn. now left.
  - f_equal. apply IH. intros Hin. apply Hn. now right.
Qed.

Lemma add_all_nodup {M : Type} (es ms : list (string * M)) :
  NoDup (map fst (ms ++ es)) -> add_all es ms = ms ++ es.
Proof.
  revert ms. induction es as [| [n x] es IH]; intros ms Hnd; simpl.
  - now rewrite app_nil_r.
  - unfold add_all in *. simpl.
    assert (Hfresh : ~ In n (map fst ms)).
    { rewrite map_app in Hnd. simpl in Hnd.
      apply NoDup_remove_2 in Hnd. intros Hin. apply Hnd.
      apply in_or_app. now left. }
    rewrite (add_module_fresh n x ms Hfresh).
    rewrite IH; rewrite <- app_assoc; simpl; [reflexivity | exact Hnd].
Qed.

Lemma add_all_app {M : Type} (es1 es2 ms : list (string * M)) :
  add_all (es1 ++ es2) ms = add_all es2 (add_all es1 ms).
Proof. unfold add_all. apply fold_left_app. Qed.

Lemma get_module_in {M : Type} (name : string) (m : M) ms :
  NoDup (map fst ms) -> In (name, m) ms -> get_module name ms = Some m.
Proof.
  induction ms as [| [n x] ms IH]; simpl; intros Hnd Hin; [contradiction |].
  inversion Hnd as [| ? ? Hfresh Hnd']; subst.
  destruct Hin as [E | Hin].
  - injection E as -> ->. now rewrite String.eqb_refl.
  - destruct (String.eqb_spec n name) as [-> | Hne].
    + exfalso. apply Hfresh. apply in_map_iff. now exists (name, m).
    + now apply IH.
Qed.

Lemma get_module_some_in {M : Type} (name : string) (m : M) ms :
  get_module name ms = Some m -> In (name, m) ms.
Proof.
  induction ms as [| [n x] ms IH]; simpl; [discriminate |].
  destruct (String.eqb_spec n name) as [-> | Hne].
  - intros [= ->]. now left.
  - intros Hg. right. now apply IH.
Qed.

(** * Facts about the constructors *)

Section Facts.

Context `{ParamOps}.

Lemma wrap64_parity (z : Z) : wrap64 z mod 2 = z mod 2.
Proof.
  unfold wrap64.
  pose proof (Z.div_mod (z + 2 ^ 63) (2 ^ 64) ltac:(discriminate)) as Hdm.
  replace ((z + 2 ^ 63) mod 2 ^ 64 - 2 ^ 63)
    with (z + (- ((z + 2 ^ 63) / 2 ^ 64) * 2 ^ 63) * 2) by lia.
  apply Z_mod_plus_full.
Qed.

Lemma wrap64_small (z : Z) : - 2 ^ 63 <= z < 2 ^ 63 -> wrap64 z = z.
Proof. intros Hz. unfold wrap64. rewrite Z.mod_small; lia. Qed.

Lemma time_padding_even (d : Z) : imul64 (3 - 1) d mod 2 = 0.
Proof.
  unfold imul64. rewrite wrap64_parity.
  change (3 - 1) with 2. rewrite Z.mul_comm. apply Z_mod_mult.
Qed.

Lemma nn_Conv2d_ok (i o : Z) (k s p d : Z * Z) (b : bool) :
  0 <= i -> 0 <= o -> 0 <= fst k -> 0 <= snd k ->
  nn_Conv2d i o k s p d b = Ok (built_Conv2d i o k s p d b).
Proof.
  intros Hi Ho Hk1 Hk2. unfold nn_Conv2d.
  destruct (Z.ltb_spec o 0), (Z.ltb_spec i 0), (Z.ltb_spec (fst k) 0),
    (Z.ltb_spec (snd k) 0); cbn [orb]; try reflexivity; lia.
Qed.

Lemma nn_Conv2d_negative (i o : Z) (k s p d : Z * Z) (b : bool) :
  o < 0 \/ i < 0 \/ fst k < 0 \/ snd k < 0 ->
  nn_Conv2d i o k s p d b = Raise (RuntimeError "negative dimension").
Proof.
  intros Hneg. unfold nn_Conv2d.
  destruct (Z.ltb_spec o 0), (Z.ltb_spec i 0), (Z.ltb_spec (fst k) 0),
    (Z.ltb_spec (snd k) 0); cbn [orb]; try reflexivity; lia.
Qed.

Lemma ResidualBlock_default_even (i o : Z) (d : Z * Z) :
  0 <= i -> 0 <= o -> (o - i) mod 2 = 0 ->
  ResidualBlock_default i o d = Ok (res_block i o d).
Proof.
  intros Hi Ho E. unfold ResidualBlock_default, ResidualBlock_init.
  cbv zeta. rewrite time_padding_even, E. cbn [Z.eqb assert bind].
  rewrite (nn_Conv2d_ok i o) by (cbn [fst snd]; lia). cbn [bind].
  rewrite (nn_Conv2d_ok o o) by (cbn [fst snd]; lia). reflexivity.
Qed.

Lemma ResidualBlock_default_odd (i o : Z) (d : Z * Z) :
  (o - i) mod 2 <> 0 ->
  ResidualBlock_default i o d = Raise (AssertionError need_even_message).
Proof.
  intros E. unfold ResidualBlock_default, ResidualBlock_init.
  cbv zeta. rewrite time_padding_even. apply Z.eqb_neq in E.
  cbn [Z.eqb assert bind]. rewrite E. reflexivity.
Qed.

Lemma add_res_even (name : string) (i o : Z) (d : Z * Z) ms :
  0 <= i -> 0 <= o -> (o - i) mod 2 = 0 ->
  add_res name i o d ms = Ok (add_module name (Block (res_block i o d)) ms).
Proof.
  intros Hi Ho E. unfold add_res. now rewrite ResidualBlock_default_even.
Qed.

(** ** Channel counts and dilations of the plan *)

Lemma int_1_5_of_double (n : Z) : int_1_5_times (int_2_times n) = 3 * n.
Proof.
  unfold int_1_5_times, int_2_times.
  replace (3 * (2 * n)) with (3 * n * 2) by lia.
  apply Z.quot_mul. discriminate.
Qed.

Lemma width_after_nonneg (n b : Z) : 0 <= n -> 0 <= width_after n b.
Proof.
  intros Hn. unfold width_after.
  destruct (b <=? 1); [exact Hn |].
  destruct (b =? 2); [unfold int_2_times; lia |].
  rewrite int_1_5_of_double. lia.
Qed.

Lemma double_time_small (t w : Z) :
  0 <= t < 2 ^ 62 -> double_time (t, w) = (2 * t, w).
Proof.
  intros Ht. unfold double_time, imul64, wrap64. simpl fst. simpl snd.
  f_equal. rewrite Z.mod_small; lia.
Qed.

Lemma dilation_of_block_values :
  dilation_of_block 1 = (1, 1) /\ dilation_of_block 2 = (2, 1) /\
  dilation_of_block 3 = (4, 1) /\ dilation_of_block 4 = (8, 1) /\
  dilation_of_block 5 = (16, 1) /\ dilation_of_block 6 = (32, 1) /\
  dilation_of_block 7 = (64, 1).
Proof. repeat split; vm_compute; reflexivity. Qed.

(** ** The registered names are pairwise distinct *)

Lemma unit_indices_nodup (b L : Z) : NoDup (unit_indices b L).
Proof.
  unfold unit_indices. destruct (b =? 1); [apply range_nodup |].
  constructor; [| apply range_nodup].
  rewrite in_range. lia.
Qed.

Lemma keys_nodup (bs : list Z) (L : Z) :
  NoDup bs -> NoDup (flat_map (fun b => map (pair b) (unit_indices b L)) bs).
Proof.
  induction 1 as [| b bs Hb Hbs IH]; simpl; [constructor |].
  apply NoDup_app; [| exact IH |].
  - apply Injective_map_NoDup; [| apply unit_indices_nodup].
    intros x y E. now injection E.
  - intros [b' k'] Hin Hin'.
    apply in_map_iff in Hin as [k [E _]]. injection E as <- <-.
    apply in_flat_map in Hin' as [b' [Hb' Hin']].
    apply in_map_iff in Hin' as [k' [E _]]. injection E as -> _.
    contradiction.
Qed.

Lemma block_keys_nodup (L : Z) : NoDup (block_keys L).
Proof.
  apply keys_nodup.
  repeat (constructor; [simpl; intuition discriminate |]). constructor.
Qed.

Lemma in_block_keys (L b k : Z) :
  In (b, k) (block_keys L) <-> is_unit L b k.
Proof.
  unfold is_unit, block_keys. rewrite in_flat_map. split.
  - intros [b' [Hb' Hin]]. apply in_map_iff in Hin as [k' [E Hk']].
    injection E as -> ->. unfold unit_indices in Hk'. simpl in Hb'.
    destruct Hb' as [<- | [<- | [<- | [<- | [<- | [<- | [<- | []]]]]]]];
      simpl in Hk'; try (destruct Hk' as [<- | Hk']);
      try apply in_range in Hk'; lia.
  - intros Hbk. exists b. split.
    + simpl. lia.
    + apply in_map. unfold unit_indices.
      destruct (Z.eqb_spec b 1) as [-> | Hb].
      * apply in_range. lia.
      * destruct Hbk as [[? _] | [_ [-> | Hk]]]; [lia | now left |].
        right. now apply in_range.
Qed.

Lemma res_entries_names (n : Z) (ks : list (Z * Z)) :
  map fst (map (res_entry n) ks) = map entry_name ks.
Proof. rewrite map_map. reflexivity. Qed.

Lemma entry_names_nodup (L : Z) : NoDup (map entry_name (block_keys L)).
Proof.
  apply Injective_map_NoDup; [| apply block_keys_nodup].
  intros [b1 k1] [b2 k2] E. unfold entry_name in E. simpl in E.
  apply res_name_inj in E as [-> ->]. reflexivity.
Qed.

Lemma entry_name_not_fixed (s : string) (ks : list (Z * Z)) :
  In s (map entry_name ks) ->
  exists t, s = String "r" (String "e" (String "s" (String "_" t))).
Proof.
  intros Hin. apply in_map_iff in Hin as [[b k] [<- _]].
  unfold entry_name. rewrite res_name_head. eauto.
Qed.

Lemma head_names (a : Args) :
  map fst (head_modules a)
  = if split_first_layer a
    then ["ensuredims"; "dimshuffle"; "conv_time"; "conv_spat"; "bnorm";
          "conv_nonlin"]
    else ["ensuredims"; "conv_time"; "bnorm"; "conv_nonlin"].
Proof. unfold head_modules. destruct (split_first_layer a); reflexivity. Qed.

Lemma raw_names (a : Args) :
  map fst (raw_modules a)
  = map fst (head_modules a)
    ++ map entry_name (block_keys (n_layers_per_block a))
    ++ ["mean_pool"; "final_layer"].
Proof.
  unfold raw_modules. rewrite !map_app, res_entries_names. reflexivity.
Qed.

Ltac fixed_names_distinct :=
  repeat (constructor; [simpl; intuition discriminate |]); constructor.

Lemma raw_names_nodup (a : Args) : NoDup (map fst (raw_modules a)).
Proof.
  rewrite raw_names, head_names.
  apply NoDup_app.
  - destruct (split_first_layer a); fixed_names_distinct.
  - apply NoDup_app; [apply entry_names_nodup | fixed_names_distinct |].
    intros s Hs Hin. apply entry_name_not_fixed in Hs as [t ->].
    simpl in Hin. intuition discriminate.
  - intros s Hs Hin. apply in_app_or in Hin as [Hin | Hin].
    + apply entry_name_not_fixed in Hin as [t ->].
      destruct (split_first_layer a); simpl in Hs; intuition discriminate.
    + destruct (split_first_layer a); simpl in Hs, Hin;
        intuition (subst; discriminate).
Qed.

(** ** The constructor as a sequence of block requests *)

Lemma bind_assoc {A B C : Type} (e : result A) (f : A -> result B)
    (g : B -> result C) :
  bind (bind e f) g = (x <- e ;; bind (f x) g).
Proof. destruct e; reflexivity. Qed.

Lemma register_all_app reqs1 reqs2 ms :
  register_all (reqs1 ++ reqs2) ms
  = (ms' <- register_all reqs1 ms ;; register_all reqs2 ms').
Proof.
  revert ms. induction reqs1 as [| [name [[i o] d]] reqs1 IH]; intros ms;
    simpl; [reflexivity |].
  destruct (add_res name i o d ms); simpl; [apply IH | reflexivity].
Qed.

Lemma register_all_cons name i o d reqs ms :
  register_all ((name, (i, o, d)) :: reqs) ms
  = (ms' <- add_res name i o d ms ;; register_all reqs ms').
Proof. reflexivity. Qed.

Lemma res_units_requests (b lo hi w : Z) (d : Z * Z) ms :
  res_units b lo hi w d ms
  = register_all (map (fun k => (res_name b k, (w, w, d))) (range lo hi)) ms.
Proof.
  unfold res_units. generalize (range lo hi) as ks. intros ks. revert ms.
  induction ks as [| k ks IH]; intros ms; simpl; [reflexivity |].
  destruct (add_res (res_name b k) w w d ms); simpl;
    [apply IH | reflexivity].
Qed.

Lemma request_rest_unfold (n b L : Z) :
  map (fun k => block_request n (b, k)) (range 1 L) = request_rest n b L.
Proof.
  apply map_ext_in. intros k Hk. apply in_range in Hk.
  unfold block_request, chan_in. cbn [fst snd].
  destruct (Z.eqb_spec k 0); [lia | reflexivity].
Qed.

Lemma requests_unfold (a : Args) :
  let n := n_first_filters a in
  let L := n_layers_per_block a in
  requested_blocks a
  = map (fun k => (res_name 1 k, (n, n, (1, 1)))) (range 0 L)
    ++ (request_first n 2 :: request_rest n 2 L)
    ++ (request_first n 3 :: request_rest n 3 L)
    ++ (request_first n 4 :: request_rest n 4 L)
    ++ (request_first n 5 :: request_rest n 5 L)
    ++ (request_first n 6 :: request_rest n 6 L)
    ++ (request_first n 7 :: request_rest n 7 L).
Proof.
  intros n L. unfold requested_blocks, block_keys. fold n. fold L.
  cbn [flat_map]. rewrite app_nil_r, !map_app.
  change (unit_indices 1 L) with (range 0 L).
  repeat match goal with
         | |- context [unit_indices ?b L] =>
             change (unit_indices b L) with (0 :: range 1 L)
         end.
  cbn [map]. rewrite !map_map, !request_rest_unfold.
  f_equal. apply map_ext. intros k. unfold block_request, chan_in.
  cbn [fst snd]. now destruct (k =? 0).
Qed.

Ltac same_step :=
  match goal with
  | |- bind ?X _ = bind ?Y _ =>
      change Y with X; destruct X; [cbn [bind] | reflexivity]
  end.

(** The constructor is its two checks, the first layers, the requested
    residual blocks one after the other, the last layers and the
    initialisation pass. *)
Lemma init_requests (a : Args) :
  EEGResNet_init a
  = (match final_pool_length a with
     | Auto => t <- self_n_times a ;; assert (is_some t) ""
     | Length _ => Ok tt
     end ;;;
     assert (first_filter_length a mod 2 =? 1) "" ;;;
     ms <- first_layers a ;;
     ms <- register_all (requested_blocks a) ms ;;
     ms <- last_layers a ms ;;
     ms <- apply_each
             (apply_module (fun m => weights_init m (conv_weight_init_fn a)))
             ms ;;
     Ok {| attrs := a; mapping := the_mapping; _modules := ms;
           training := true |}).
Proof.
  unfold EEGResNet_init, first_layers.
  same_step. same_step.
  cbv zeta. rewrite bind_assoc. same_step.
  rewrite requests_unfold.
  change (1 + 1 + 1 + 1 + 1 + 1 + 1) with 7.
  change (1 + 1 + 1 + 1 + 1 + 1) with 6.
  change (1 + 1 + 1 + 1 + 1) with 5.
  change (1 + 1 + 1 + 1) with 4.
  change (1 + 1 + 1) with 3.
  change (1 + 1) with 2.
  set (n := n_first_filters a). set (L := n_layers_per_block a).
  unfold request_first.
  rewrite res_units_requests, register_all_app, bind_assoc.
  same_step.
  do 5 (rewrite <- app_comm_cons, register_all_cons, bind_assoc; same_step;
        rewrite res_units_requests, register_all_app, bind_assoc;
        unfold request_rest at 1; same_step).
  rewrite register_all_cons, bind_assoc. same_step.
  rewrite res_units_requests. unfold request_rest. same_step.
  unfold last_layers. cbv zeta. rewrite bind_assoc.
  destruct (final_pool_length a); reflexivity.
Qed.

Lemma request_delta (n L b k : Z) :
  is_unit L b k ->
  width_after n b - chan_in n b k = 0 \/ width_after n b - chan_in n b k = n.
Proof.
  unfold is_unit, chan_in. intros Hu.
  assert (Hb : b = 1 \/ b = 2 \/ b = 3 \/ b = 4 \/ b = 5 \/ b = 6 \/ b = 7)
    by lia.
  destruct (k =? 0);
    destruct Hb as [-> | [-> | [-> | [-> | [-> | [-> | ->]]]]]];
    cbn [width_after Z.sub Z.leb Z.eqb Z.compare Pos.compare Pos.eqb
         Pos.compare_cont Z.add Z.opp Z.pos_sub Pos.pred_double];
    rewrite ?int_1_5_of_double; unfold int_2_times; lia.
Qed.

(** ** The steps of the constructor *)

Lemma time_check (a : Args) :
  match final_pool_length a with
  | Auto => t <- self_n_times a ;; assert (is_some t) ""
  | Length _ => Ok tt
  end
  = if time_known a then Ok tt else Raise ValueError.
Proof.
  unfold time_known, self_n_times.
  destruct (final_pool_length a); [| reflexivity].
  destruct (n_times a); reflexivity.
Qed.

Lemma first_layers_ok (a : Args) :
  0 <= n_first_filters a -> 0 <= first_filter_length a -> 0 <= n_chans a ->
  first_layers a = Ok (head_modules a).
Proof.
  intros Hn Hf Hc. unfold first_layers, head_modules. cbv zeta.
  destruct (split_first_layer a);
    repeat (rewrite nn_Conv2d_ok by (cbn [fst snd]; lia); cbn [bind]);
    reflexivity.
Qed.

Lemma first_layers_negative (a : Args) :
  n_first_filters a < 0 \/ first_filter_length a < 0 \/ n_chans a < 0 ->
  first_layers a = Raise (RuntimeError "negative dimension").
Proof.
  intros Hneg. unfold first_layers. cbv zeta.
  destruct (split_first_layer a).
  - destruct (Z.ltb_spec (n_first_filters a) 0);
      [rewrite nn_Conv2d_negative by (cbn [fst snd]; lia); reflexivity |].
    destruct (Z.ltb_spec (first_filter_length a) 0);
      [rewrite nn_Conv2d_negative by (cbn [fst snd]; lia); reflexivity |].
    rewrite nn_Conv2d_ok by (cbn [fst snd]; lia). cbn [bind].
    rewrite nn_Conv2d_negative by (cbn [fst snd]; lia). reflexivity.
  - rewrite nn_Conv2d_negative by (cbn [fst snd]; lia). reflexivity.
Qed.

Lemma register_all_ok reqs ms :
  (forall name i o d, In (name, (i, o, d)) reqs ->
     0 <= i /\ 0 <= o /\ (o - i) mod 2 = 0) ->
  register_all reqs ms = Ok (add_all (map requested_entry reqs) ms).
Proof.
  revert ms. induction reqs as [| [name [[i o] d]] reqs IH]; intros ms Hall;
    [reflexivity |].
  rewrite register_all_cons.
  destruct (Hall name i o d (or_introl eq_refl)) as [Hi [Ho He]].
  rewrite add_res_even by assumption. cbn [bind].
  rewrite IH by (intros name' i' o' d' Hin; apply (Hall name' i' o' d'); now right).
  reflexivity.
Qed.

Lemma requests_entries (a : Args) :
  map requested_entry (requested_blocks a)
  = map (res_entry (n_first_filters a)) (block_keys (n_layers_per_block a)).
Proof.
  unfold requested_blocks. rewrite map_map. apply map_ext.
  intros [b k]. reflexivity.
Qed.

Lemma requests_ok (a : Args) ms :
  0 <= n_first_filters a -> n_first_filters a mod 2 = 0 ->
  register_all (requested_blocks a) ms
  = Ok (add_all (map (res_entry (n_first_filters a))
                   (block_keys (n_layers_per_block a))) ms).
Proof.
  intros Hn He. rewrite register_all_ok, requests_entries; [reflexivity |].
  intros name i o d Hin. unfold requested_blocks in Hin.
  apply in_map_iff in Hin as [[b k] [E Hin]].
  apply in_block_keys in Hin. unfold block_request in E.
  cbn [fst snd] in E. injection E as _ <- <- _.
  split; [| split].
  - unfold chan_in. destruct (k =? 0); now apply width_after_nonneg.
  - now apply width_after_nonneg.
  - destruct (request_delta (n_first_filters a) _ b k Hin) as [-> | ->];
      [reflexivity | exact He].
Qed.

Lemma requests_odd (a : Args) ms :
  0 <= n_first_filters a -> n_first_filters a mod 2 <> 0 ->
  register_all (requested_blocks a) ms
  = Raise (AssertionError need_even_message).
Proof.
  intros Hn Ho. rewrite requests_unfold. cbv zeta.
  rewrite register_all_app, register_all_ok.
  2: { intros name i o d Hin. apply in_map_iff in Hin as [k [E _]].
       injection E as _ <- <- _. rewrite Z.sub_diag. auto. }
  cbn [bind]. rewrite <- app_comm_cons. unfold request_first.
  rewrite register_all_cons. unfold add_res.
  rewrite ResidualBlock_default_odd; [reflexivity |].
  change (width_after (n_first_filters a) (2 - 1)) with (n_first_filters a).
  change (width_after (n_first_filters a) 2)
    with (int_2_times (n_first_filters a)).
  unfold int_2_times.
  now replace (2 * n_first_filters a - n_first_filters a)
    with (n_first_filters a) by lia.
Qed.

Lemma last_layers_ok (a : Args) ms :
  0 <= n_first_filters a -> 0 <= n_outputs a ->
  last_layers a ms = Ok (add_all (tail_modules a) ms).
Proof.
  intros Hn Ho. unfold last_layers. cbv zeta.
  rewrite nn_Conv2d_ok;
    [| now apply width_after_nonneg | exact Ho | cbn [fst]; lia
     | cbn [snd]; lia].
  cbn [bind]. unfold tail_modules.
  destruct (final_pool_length a); reflexivity.
Qed.

Lemma last_layers_negative (a : Args) ms :
  n_outputs a < 0 ->
  last_layers a ms = Raise (RuntimeError "negative dimension").
Proof.
  intros Ho. unfold last_layers. cbv zeta.
  rewrite nn_Conv2d_negative by (left; exact Ho). reflexivity.
Qed.

(** No registration of the constructor replaces an earlier child: the
    children are the list of what was registered. *)
Lemma registered_all (a : Args) :
  add_all (tail_modules a)
    (add_all (map (res_entry (n_first_filters a))
                (block_keys (n_layers_per_block a)))
       (head_modules a))
  = raw_modules a.
Proof.
  transitivity (add_all (raw_modules a) []).
  - unfold raw_modules. rewrite !add_all_app.
    replace (add_all (head_modules a) []) with (head_modules a);
      [reflexivity |].
    symmetry. apply (add_all_nodup (head_modules a) []).
    pose proof (raw_names_nodup a) as Hnd. rewrite raw_names in Hnd.
    now apply NoDup_app_remove_r in Hnd.
  - apply (add_all_nodup (raw_modules a) []). apply raw_names_nodup.
Qed.

(** ** The initialisation pass *)

Lemma weights_init_case_values :
  weights_init_case "Conv2d" = InitConv
  /\ weights_init_case "BatchNorm2d" = InitBatchNorm
  /\ weights_init_case "AvgPool2dWithConv" = InitNone
  /\ weights_init_case "ELU" = InitNone
  /\ weights_init_case "_ResidualBlock" = InitNone
  /\ weights_init_case "Sequential" = InitNone
  /\ weights_init_case "EEGResNet" = InitNone.
Proof. repeat split; vm_compute; reflexivity. Qed.

Lemma weights_init_conv (f : W -> W) (c : Conv2d) :
  weights_init (Conv c) f = Ok (initialised f (Conv c)).
Proof.
  unfold weights_init. cbn [class_name].
  destruct weights_init_case_values as [-> _].
  cbn [get_weight bind initialised set_weight get_bias conv_bias].
  destruct (conv_bias c); reflexivity.
Qed.

Lemma weights_init_bn (f : W -> W) (b : BatchNorm2d) :
  weights_init (BatchNorm b) f = Ok (initialised f (BatchNorm b)).
Proof.
  unfold weights_init. cbn [class_name].
  destruct weights_init_case_values as [_ [-> _]].
  reflexivity.
Qed.

Lemma weights_init_activation (f : W -> W) (cls : string) :
  weights_init (Activation cls) f
  = match weights_init_case cls with
    | InitNone => Ok (Activation cls)
    | _ => Raise (AttributeError "weight")
    end.
Proof.
  unfold weights_init. cbn [class_name].
  destruct (weights_init_case cls); reflexivity.
Qed.

Lemma weights_init_ensure4d (f : W -> W) :
  weights_init (Helper Ensure4d) f = Ok (Helper Ensure4d).
Proof. reflexivity. Qed.

Lemma weights_init_rearrange (f : W -> W) (pat : string) :
  weights_init (Rearrange pat) f = Ok (Rearrange pat).
Proof. reflexivity. Qed.

Lemma apply_res_block (f : W -> W) (i o : Z) (d : Z * Z) :
  apply_module (fun m => weights_init m f) (Block (res_block i o d))
  = Ok (initialised_module f (Block (res_block i o d))).
Proof.
  cbn [apply_module]. unfold apply_block, res_block.
  cbn [conv_1 bn1 conv_2 bn2 nonlinearity n_pad_chans].
  rewrite !weights_init_conv, !weights_init_bn, weights_init_activation.
  destruct weights_init_case_values as [_ [_ [_ [-> [HB _]]]]].
  unfold weights_init_container. rewrite HB. reflexivity.
Qed.

Lemma apply_each_app {M : Type} (f : M -> result M) (l1 l2 : list (string * M)) :
  apply_each f (l1 ++ l2)
  = (r1 <- apply_each f l1 ;; r2 <- apply_each f l2 ;; Ok (r1 ++ r2)).
Proof.
  induction l1 as [| [n m] l1 IH]; simpl.
  - destruct (apply_each f l2); reflexivity.
  - destruct (f m); simpl; [| reflexivity]. rewrite IH.
    destruct (apply_each f l1); simpl; [| reflexivity].
    destruct (apply_each f l2); reflexivity.
Qed.

Lemma apply_each_all_ok {M : Type} (f : M -> result M) (g : M -> M) ms :
  (forall nm, In nm ms -> f (snd nm) = Ok (g (snd nm))) ->
  apply_each f ms = Ok (map (fun nm => (fst nm, g (snd nm))) ms).
Proof.
  induction ms as [| [n m] ms IH]; intros Hall; simpl; [reflexivity |].
  pose proof (Hall (n, m) (or_introl eq_refl)) as Hm. cbn [snd] in Hm.
  rewrite Hm. cbn [bind].
  rewrite IH by (intros nm Hin; apply Hall; now right). reflexivity.
Qed.

Lemma apply_blocks_and_tail (a : Args) :
  let f := conv_weight_init_fn a in
  let rest := map (res_entry (n_first_filters a))
                (block_keys (n_layers_per_block a)) ++ tail_modules a in
  apply_each (apply_module (fun m => weights_init m f)) rest
  = Ok (map (fun nm => (fst nm, initialised_module f (snd nm))) rest).
Proof.
  intros f rest. apply apply_each_all_ok. intros [name m] Hin.
  apply in_app_or in Hin as [Hin | Hin].
  - apply in_map_iff in Hin as [bk [E _]]. unfold res_entry in E.
    injection E as _ <-. apply apply_res_block.
  - unfold tail_modules in Hin. cbn [In] in Hin.
    destruct Hin as [E | [E | []]]; injection E as _ <-; cbn [snd].
    + destruct (final_pool_length a); reflexivity.
    + cbn [apply_module apply_each]. rewrite weights_init_conv.
      reflexivity.
Qed.

Lemma apply_head (a : Args) :
  let f := conv_weight_init_fn a in
  apply_each (apply_module (fun m => weights_init m f)) (head_modules a)
  = match weights_init_case (activation a) with
    | InitNone =>
        Ok (map (fun nm => (fst nm, initialised_module f (snd nm)))
              (head_modules a))
    | _ => Raise (AttributeError "weight")
    end.
Proof.
  intros f. unfold head_modules.
  destruct (split_first_layer a); simpl app; simpl apply_each;
    repeat (first [ rewrite weights_init_ensure4d
                  | rewrite weights_init_rearrange
                  | rewrite weights_init_conv
                  | rewrite weights_init_bn ]; cbn [bind]);
    rewrite weights_init_activation;
    destruct (weights_init_case (activation a)); reflexivity.
Qed.

Lemma apply_raw (a : Args) :
  apply_each
    (apply_module (fun m => weights_init m (conv_weight_init_fn a)))
    (raw_modules a)
  = match weights_init_case (activation a) with
    | InitNone => Ok (final_modules a)
    | _ => Raise (AttributeError "weight")
    end.
Proof.
  unfold final_modules, raw_modules.
  rewrite apply_each_app, apply_head, apply_blocks_and_tail.
  destruct (weights_init_case (activation a)); try reflexivity.
  cbn [bind]. f_equal. symmetry. apply map_app.
Qed.

(** ** The outcomes of the constructor *)

Lemma init_outcome (a : Args) :
  EEGResNet_init a
  = match construction_error a with
    | Some e => Raise e
    | None =>
        match weights_init_case (activation a) with
        | InitNone =>
            Ok {| attrs := a; mapping := the_mapping;
                  _modules := final_modules a; training := true |}
        | _ => Raise (AttributeError "weight")
        end
    end.
Proof.
  rewrite init_requests, time_check. unfold construction_error.
  destruct (time_known a); cbn [negb bind]; [| reflexivity].
  destruct (first_filter_length a mod 2 =? 1); cbn [negb assert bind];
    [| reflexivity].
  destruct (Z.ltb_spec (n_first_filters a) 0) as [Hn | Hn];
    [rewrite first_layers_negative by lia; reflexivity |].
  destruct (Z.ltb_spec (first_filter_length a) 0) as [Hf | Hf];
    [rewrite first_layers_negative by lia; reflexivity |].
  destruct (Z.ltb_spec (n_chans a) 0) as [Hc | Hc];
    [rewrite first_layers_negative by lia; reflexivity |].
  rewrite first_layers_ok by assumption. cbn [orb bind].
  destruct (Z.eqb_spec (n_first_filters a mod 2) 0) as [He | He];
    cbn [negb]; [| rewrite requests_odd by assumption; reflexivity].
  rewrite requests_ok by assumption. cbn [bind].
  destruct (Z.ltb_spec (n_outputs a) 0) as [Ho | Ho];
    [rewrite last_layers_negative by assumption; reflexivity |].
  rewrite last_layers_ok by assumption. cbn [bind].
  rewrite registered_all, apply_raw.
  destruct (weights_init_case (activation a)); reflexivity.
Qed.

Lemma construction_error_none (a : Args) :
  construction_error a = None ->
  time_known a = true
  /\ first_filter_length a mod 2 = 1 /\ n_first_filters a mod 2 = 0
  /\ 0 <= n_first_filters a /\ 0 <= first_filter_length a
  /\ 0 <= n_chans a /\ 0 <= n_outputs a.
Proof.
  unfold construction_error.
  destruct (time_known a); cbn [negb]; [| discriminate].
  destruct (Z.eqb_spec (first_filter_length a mod 2) 1); cbn [negb];
    [| discriminate].
  destruct (Z.ltb_spec (n_first_filters a) 0); cbn [orb]; [discriminate |].
  destruct (Z.ltb_spec (first_filter_length a) 0); cbn [orb];
    [discriminate |].
  destruct (Z.ltb_spec (n_chans a) 0); cbn [orb]; [discriminate |].
  destruct (Z.eqb_spec (n_first_filters a mod 2) 0); cbn [negb];
    [| discriminate].
  destruct (Z.ltb_spec (n_outputs a) 0); [discriminate |].
  auto 10.
Qed.

Lemma init_ok (a : Args) :
  construction_error a = None -> weights_init_case (activation a) = InitNone ->
  EEGResNet_init a
  = Ok {| attrs := a; mapping := the_mapping; _modules := final_modules a;
          training := true |}.
Proof. intros Hp Hact. rewrite init_outcome, Hp, Hact. reflexivity. Qed.

(** ** Reading the constructed model *)

Lemma init_success (a : Args) (m : EEGResNet) :
  EEGResNet_init a = Ok m ->
  construction_error a = None
  /\ weights_init_case (activation a) = InitNone
  /\ m = {| attrs := a; mapping := the_mapping;
            _modules := final_modules a; training := true |}.
Proof.
  rewrite init_outcome.
  destruct (construction_error a); [discriminate |].
  destruct (weights_init_case (activation a)); try discriminate.
  intros [= <-]. auto.
Qed.

Lemma final_names_nodup (a : Args) : NoDup (map fst (final_modules a)).
Proof.
  unfold final_modules. rewrite map_map. cbn [fst].
  apply raw_names_nodup.
Qed.

Lemma final_lookup (a : Args) (name : string) (x : module) :
  In (name, x) (raw_modules a) ->
  get_module name (final_modules a)
  = Some (initialised_module (conv_weight_init_fn a) x).
Proof.
  intros Hin. apply get_module_in; [apply final_names_nodup |].
  unfold final_modules. apply in_map_iff. now exists (name, x).
Qed.

Lemma in_raw_head (a : Args) nm :
  In nm (head_modules a) -> In nm (raw_modules a).
Proof. intros Hin. unfold raw_modules. apply in_or_app. now left. Qed.

Lemma in_raw_res (a : Args) (b k : Z) :
  is_unit (n_layers_per_block a) b k ->
  In (res_entry (n_first_filters a) (b, k)) (raw_modules a).
Proof.
  intros Hu. unfold raw_modules. apply in_or_app. right.
  apply in_or_app. left. apply in_map. now apply in_block_keys.
Qed.

Lemma in_raw_tail (a : Args) nm :
  In nm (tail_modules a) -> In nm (raw_modules a).
Proof.
  intros Hin. unfold raw_modules. apply in_or_app. right.
  apply in_or_app. now right.
Qed.

Lemma res_at_final (a : Args) (m : EEGResNet) (b k : Z) :
  EEGResNet_init a = Ok m -> is_unit (n_layers_per_block a) b k ->
  res_at m b k
  = match initialised_module (conv_weight_init_fn a)
            (Block (res_block (chan_in (n_first_filters a) b k)
                      (width_after (n_first_filters a) b)
                      (dilation_of_block b))) with
    | Block blk => Some blk
    | _ => None
    end.
Proof.
  intros Hm Hu. apply init_success in Hm as [_ [_ ->]].
  unfold res_at. cbn [_modules].
  rewrite (final_lookup a (res_name b k) _ (in_raw_res a b k Hu)).
  reflexivity.
Qed.

Lemma channels_at_final (a : Args) (m : EEGResNet) (b k : Z) :
  EEGResNet_init a = Ok m -> is_unit (n_layers_per_block a) b k ->
  channels_at m b k
  = Some (chan_in (n_first_filters a) b k, width_after (n_first_filters a) b).
Proof.
  intros Hm Hu. unfold channels_at. rewrite (res_at_final a m b k Hm Hu).
  reflexivity.
Qed.

Lemma dilation_at_final (a : Args) (m : EEGResNet) (b k : Z) :
  EEGResNet_init a = Ok m -> is_unit (n_layers_per_block a) b k ->
  dilation_at m b k = Some (dilation_of_block b).
Proof.
  intros Hm Hu. unfold dilation_at. rewrite (res_at_final a m b k Hm Hu).
  cbn. rewrite !Z.eqb_refl. cbn. now destruct (dilation_of_block b).
Qed.

(** * The claims about the constructor *)

(** C3.  For every configuration the constructor accepts, the residual
    blocks have these channel counts: every unit of block 1 maps
    [n_first_filters] to itself; the first unit of block 2 maps it to
    [int(2 * n_first_filters)]; the first unit of block 3 maps that to
    [int(1.5 * ...)] of it; every unit of blocks 4 to 7 keeps the last
    count; and in blocks 2 and 3 every unit after the first has input =
    output = the new count. *)
Theorem C3_channel_progression (a : Args) (m : EEGResNet) :
  EEGResNet_init a = Ok m ->
  let n := n_first_filters a in
  let L := n_layers_per_block a in
  let c2 := int_2_times n in
  let c3 := int_1_5_times c2 in
  (forall k, 0 <= k < L -> channels_at m 1 k = Some (n, n))
  /\ channels_at m 2 0 = Some (n, c2)
  /\ (forall k, 1 <= k < L -> channels_at m 2 k = Some (c2, c2))
  /\ channels_at m 3 0 = Some (c2, c3)
  /\ (forall k, 1 <= k < L -> channels_at m 3 k = Some (c3, c3))
  /\ (forall b k, 4 <= b <= 7 -> k = 0 \/ 1 <= k < L ->
        channels_at m b k = Some (c3, c3)).
Proof.
  intros Hm n L c2 c3.
  assert (Hat : forall b k, is_unit L b k ->
                  channels_at m b k = Some (chan_in n b k, width_after n b))
    by (intros b k; apply channels_at_final; exact Hm).
  unfold is_unit in Hat.
  repeat split.
  - intros k Hk. rewrite Hat by lia. unfold chan_in.
    now destruct (k =? 0).
  - rewrite Hat by lia. reflexivity.
  - intros k Hk. rewrite Hat by lia. unfold chan_in.
    destruct (Z.eqb_spec k 0); [lia | reflexivity].
  - rewrite Hat by lia. reflexivity.
  - intros k Hk. rewrite Hat by lia. unfold chan_in.
    destruct (Z.eqb_spec k 0); [lia | reflexivity].
  - intros b k Hb Hk. rewrite Hat by lia.
    assert (Hb' : b = 4 \/ b = 5 \/ b = 6 \/ b = 7) by lia.
    unfold chan_in.
    destruct Hb' as [-> | [-> | [-> | ->]]]; now destruct (k =? 0).
Qed.

Lemma dilation_of_block_pow (b : Z) :
  1 <= b <= 7 -> dilation_of_block b = (2 ^ (b - 1), 1).
Proof.
  intros Hb.
  assert (Hb' : b = 1 \/ b = 2 \/ b = 3 \/ b = 4 \/ b = 5 \/ b = 6 \/ b = 7)
    by lia.
  destruct Hb' as [-> | [-> | [-> | [-> | [-> | [-> | ->]]]]]];
    vm_compute; reflexivity.
Qed.

(** C4, as the code has it.  Across the 7 blocks the temporal dilation
    starts at 1 in block 1 and is doubled at each of the 6 block
    boundaries: every unit of block [b] gets the dilation [(2^(b-1), 1)],
    the last block gets [2^6 = 64], and that value is the dilation of the
    final pooling when the pooling length is an integer. *)
Theorem C4_dilation_doubles_at_each_boundary (a : Args) (m : EEGResNet) :
  EEGResNet_init a = Ok m ->
  (forall b k, is_unit (n_layers_per_block a) b k ->
     dilation_at m b k = Some (2 ^ (b - 1), 1))
  /\ dilation_at m 7 0 = Some (2 ^ 6, 1)
  /\ (forall p, final_pool_length a = Length p ->
        get_module "mean_pool" (_modules m)
        = Some (Layer (Helper (AvgPool2dWithConv (p, 1) (1, 1) (2 ^ 6, 1))))).
Proof.
  intros Hm.
  assert (Hat : forall b k, is_unit (n_layers_per_block a) b k ->
                  dilation_at m b k = Some (2 ^ (b - 1), 1)).
  { intros b k Hu. rewrite (dilation_at_final a m b k Hm Hu).
    rewrite dilation_of_block_pow; [reflexivity |].
    unfold is_unit in Hu. lia. }
  repeat split.
  - exact Hat.
  - apply (Hat 7 0). unfold is_unit. lia.
  - intros p Hp. apply init_success in Hm as [_ [_ ->]]. cbn [_modules].
    rewrite (final_lookup a "mean_pool"
               (Layer (Helper (AvgPool2dWithConv (p, 1) (1, 1)
                                 (dilation_of_block 7))))).
    + reflexivity.
    + apply in_raw_tail. unfold tail_modules. rewrite Hp. now left.
Qed.

(** C7, as the code has it.  With [split_first_layer] the temporal-only
    first convolution [conv_time] has 1 input channel and [n_first_filters]
    output channels, kernel [(first_filter_length, 1)] and temporal padding
    [first_filter_length // 2]. *)
Theorem C7_conv_time_of_split_first_layer (a : Args) (m : EEGResNet) :
  split_first_layer a = true -> EEGResNet_init a = Ok m ->
  exists c,
    get_module "conv_time" (_modules m) = Some (Layer (Conv c))
    /\ in_channels c = 1
    /\ out_channels c = n_first_filters a
    /\ kernel_size c = (first_filter_length a, 1)
    /\ padding c = (first_filter_length a / 2, 0).
Proof.
  intros Hs Hm. apply init_success in Hm as [_ [_ ->]]. cbn [_modules].
  assert (Hin : In ("conv_time",
                    Layer (Conv (built_Conv2d 1 (n_first_filters a)
                                   (first_filter_length a, 1) (1, 1)
                                   (first_filter_length a / 2, 0) (1, 1)
                                   true)))
                  (raw_modules a)).
  { apply in_raw_head. unfold head_modules. rewrite Hs. cbn [app].
    right. right. left. reflexivity. }
  rewrite (final_lookup a _ _ Hin). cbn.
  eexists. repeat split.
Qed.

(** Every block among the registered children is one built by
    [_ResidualBlock] with its default arguments. *)
Lemma raw_blocks (a : Args) (name : string) (blk : ResidualBlock) :
  In (name, Block blk) (raw_modules a) ->
  exists i o d, blk = res_block i o d.
Proof.
  unfold raw_modules. intros Hin.
  apply in_app_or in Hin as [Hin | Hin];
    [| apply in_app_or in Hin as [Hin | Hin]].
  - unfold head_modules in Hin.
    destruct (split_first_layer a); cbn [app In] in Hin;
      repeat (destruct Hin as [Hin | Hin]; [discriminate Hin |]);
      contradiction.
  - apply in_map_iff in Hin as [bk [E _]]. unfold res_entry in E.
    injection E as _ <-. eauto.
  - unfold tail_modules in Hin. cbn [In] in Hin.
    destruct Hin as [Hin | [Hin | []]].
    + destruct (final_pool_length a); discriminate Hin.
    + discriminate Hin.
Qed.

Lemma final_blocks (a : Args) (name : string) (blk : ResidualBlock) :
  In (name, Block blk) (final_modules a) ->
  exists i o d,
    Block blk
    = initialised_module (conv_weight_init_fn a) (Block (res_block i o d)).
Proof.
  unfold final_modules. intros Hin.
  apply in_map_iff in Hin as [[name' x] [E Hin]]. cbn [fst snd] in E.
  injection E as -> E. destruct x as [l | b | cs]; try discriminate E.
  apply raw_blocks in Hin as [i [o [d ->]]].
  exists i, o, d. now rewrite E.
Qed.

Ltac layer_ok :=
  cbn;
  first [ exact I
        | split; [reflexivity
                 | first [reflexivity | left; reflexivity | right; reflexivity]] ].

Ltac layers_ok :=
  cbn; repeat (apply Forall_cons; [layer_ok |]); apply Forall_nil.

(** C8.  Right after construction every batch normalisation of the model
    has scale 1 and shift 0, and every convolution (the pooling helper
    [AvgPool2dWithConv] is not one and is left alone) has its weight
    written by the supplied initialiser and its bias, if it has one, 0. *)
Theorem C8_weights_initialised (a : Args) (m : EEGResNet) :
  EEGResNet_init a = Ok m ->
  Forall (initialised_as (conv_weight_init_fn a)) (all_layers m).
Proof.
  intros Hm. apply init_success in Hm as [_ [_ ->]].
  unfold all_layers. cbn [_modules]. apply Forall_flat_map.
  unfold final_modules. apply Forall_map. apply Forall_forall.
  intros [name x] Hin. cbn [fst snd].
  unfold raw_modules in Hin.
  apply in_app_or in Hin as [Hin | Hin];
    [| apply in_app_or in Hin as [Hin | Hin]].
  - unfold head_modules in Hin.
    destruct (split_first_layer a); cbn [app In] in Hin;
      repeat (destruct Hin as [Hin | Hin];
              [injection Hin as _ <-; layers_ok |]);
      contradiction.
  - apply in_map_iff in Hin as [bk [E _]]. unfold res_entry in E.
    injection E as _ <-. layers_ok.
  - unfold tail_modules in Hin. cbn [In] in Hin.
    destruct Hin as [Hin | [Hin | []]]; injection Hin as _ <-.
    + destruct (final_pool_length a); layers_ok.
    + layers_ok.
Qed.

(** C9.  The argument [batch_norm_epsilon] does not reach the network: two
    constructions that differ in it alone end the same way, with the same
    children, and the constructed objects differ in nothing but the
    attribute that stores the argument; the first batch normalisation has
    [eps = 1e-5] and both batch normalisations of every residual block have
    [eps = 1e-4]. *)
Theorem C9_batch_norm_epsilon_unused (a : Args) (e1 e2 : Q) :
  modules_of (EEGResNet_init (with_batch_norm_epsilon e1 a))
  = modules_of (EEGResNet_init (with_batch_norm_epsilon e2 a))
  /\ forall m, EEGResNet_init (with_batch_norm_epsilon e1 a) = Ok m ->
       EEGResNet_init (with_batch_norm_epsilon e2 a)
       = Ok {| attrs := with_batch_norm_epsilon e2 a; mapping := mapping m;
               _modules := _modules m; training := training m |}
       /\ (exists b, get_module "bnorm" (_modules m) = Some (Layer (BatchNorm b))
                     /\ eps b = (1 # 100000)%Q)
       /\ (forall name blk, In (name, Block blk) (_modules m) ->
             exists b1 b2, bn1 blk = BatchNorm b1 /\ bn2 blk = BatchNorm b2
                           /\ eps b1 = (1 # 10000)%Q
                           /\ eps b2 = (1 # 10000)%Q).
Proof.
  split.
  - rewrite !init_outcome.
    change (construction_error (with_batch_norm_epsilon e1 a))
      with (construction_error a).
    change (construction_error (with_batch_norm_epsilon e2 a))
      with (construction_error a).
    change (activation (with_batch_norm_epsilon e1 a)) with (activation a).
    change (activation (with_batch_norm_epsilon e2 a)) with (activation a).
    destruct (construction_error a);
      [| destruct (weights_init_case (activation a))]; reflexivity.
  - intros m Hm. apply init_success in Hm as [Hp [Hact ->]].
    cbn [_modules mapping training].
    split; [| split].
    + apply (init_ok (with_batch_norm_epsilon e2 a)); assumption.
    + set (a1 := with_batch_norm_epsilon e1 a).
      assert (Hin : In ("bnorm",
                        Layer (BatchNorm (nn_BatchNorm2d (n_first_filters a1)
                                            (batch_norm_alpha a1)
                                            (1 # 100000)%Q)))
                      (raw_modules a1)).
      { apply in_raw_head. unfold head_modules. apply in_or_app. right.
        apply in_or_app. right. now left. }
      rewrite (final_lookup a1 _ _ Hin). cbn. eexists. split; reflexivity.
    + intros name blk Hin. apply final_blocks in Hin as [i [o [d E]]].
      cbn in E. injection E as ->. cbn.
      do 2 eexists. repeat split.
Qed.

Lemma map_add_module {M : Type} (g : M -> M) (name : string) (x : M) ms :
  map (fun nm => (fst nm, g (snd nm))) (add_module name x ms)
  = add_module name (g x) (map (fun nm => (fst nm, g (snd nm))) ms).
Proof.
  induction ms as [| [n y] ms IH]; cbn [add_module map fst snd];
    [reflexivity |].
  destruct (String.eqb n name); cbn [map fst snd]; [reflexivity |].
  now rewrite IH.
Qed.

Lemma raw_modules_activation (cls : string) (a : Args) :
  raw_modules (with_activation cls a)
  = add_module "conv_nonlin" (Layer (Activation cls)) (raw_modules a).
Proof.
  unfold raw_modules, head_modules, with_activation.
  cbn [split_first_layer n_first_filters first_filter_length n_chans
       batch_norm_alpha activation n_layers_per_block].
  destruct (split_first_layer a); reflexivity.
Qed.

Lemma final_modules_activation (cls : string) (a : Args) :
  final_modules (with_activation cls a)
  = add_module "conv_nonlin" (Layer (Activation cls)) (final_modules a).
Proof.
  unfold final_modules. rewrite raw_modules_activation, map_add_module.
  reflexivity.
Qed.

(** C10.  The argument [activation] reaches one child only, the
    nonlinearity [conv_nonlin] after the first batch normalisation: of two
    constructions that differ in it alone, the children of the second are
    those of the first with [conv_nonlin] replaced; and the nonlinearity of
    every residual block is [ELU] whatever the argument. *)
Theorem C10_activation_reaches_conv_nonlin_only
    (a : Args) (act1 act2 : string) (m1 m2 : EEGResNet) :
  EEGResNet_init (with_activation act1 a) = Ok m1 ->
  EEGResNet_init (with_activation act2 a) = Ok m2 ->
  get_module "conv_nonlin" (_modules m1) = Some (Layer (Activation act1))
  /\ _modules m2
     = add_module "conv_nonlin" (Layer (Activation act2)) (_modules m1)
  /\ (forall name blk, In (name, Block blk) (_modules m1) ->
        nonlinearity blk = Activation "ELU")
  /\ (forall name blk, In (name, Block blk) (_modules m2) ->
        nonlinearity blk = Activation "ELU").
Proof.
  intros Hm1 Hm2.
  apply init_success in Hm1 as [_ [_ ->]].
  apply init_success in Hm2 as [_ [_ ->]]. cbn [_modules].
  assert (Hblocks : forall a' name blk,
            In (name, Block blk) (final_modules a') ->
            nonlinearity blk = Activation "ELU").
  { intros a' name blk Hin. apply final_blocks in Hin as [i [o [d E]]].
    cbn in E. injection E as ->. reflexivity. }
  repeat split; eauto.
  - set (a1 := with_activation act1 a).
    assert (Hin : In ("conv_nonlin", Layer (Activation (activation a1)))
                    (raw_modules a1)).
    { apply in_raw_head. unfold head_modules. apply in_or_app. right.
      apply in_or_app. right. right. now left. }
    rewrite (final_lookup a1 _ _ Hin). reflexivity.
  - rewrite <- final_modules_activation. reflexivity.
Qed.

Lemma time_known_false (a : Args) :
  time_known a = false <-> final_pool_length a = Auto /\ n_times a = None.
Proof.
  unfold time_known. destruct (final_pool_length a), (n_times a); cbn;
    intuition discriminate.
Qed.

Lemma odd_request (a : Args) :
  (exists name i o d,
     In (name, (i, o, d)) (requested_blocks a) /\ Z.odd (o - i) = true)
  <-> Z.odd (n_first_filters a) = true.
Proof.
  split.
  - intros [name [i [o [d [Hin Hodd]]]]].
    unfold requested_blocks in Hin.
    apply in_map_iff in Hin as [[b k] [E Hin]].
    apply in_block_keys in Hin. unfold block_request in E.
    cbn [fst snd] in E. injection E as _ <- <- _.
    destruct (request_delta (n_first_filters a) _ b k Hin) as [E0 | En].
    + rewrite E0 in Hodd. discriminate Hodd.
    + now rewrite En in Hodd.
  - intros Hodd.
    exists (res_name 2 0), (n_first_filters a),
      (int_2_times (n_first_filters a)), (dilation_of_block 2).
    split.
    + unfold requested_blocks.
      change (res_name 2 0, (n_first_filters a,
                             int_2_times (n_first_filters a),
                             dilation_of_block 2))
        with (block_request (n_first_filters a) (2, 0)).
      apply in_map. apply in_block_keys. unfold is_unit. lia.
    + unfold int_2_times.
      now replace (2 * n_first_filters a - n_first_filters a)
        with (n_first_filters a) by lia.
Qed.

(** C6, amended.  The constructor raises an assertion error exactly when
    the time length is there to be read (it is known, or the pooling
    length is not ["auto"]) and either [first_filter_length] is even, or
    the sizes of the first convolutions ([n_first_filters],
    [first_filter_length], [n_chans]) are not negative and one of the
    residual blocks it asks for has an odd difference between its output
    and input channel counts.  With [final_pool_length] ["auto"] and no
    time length the constructor raises as well, but the [ValueError] of
    the mixin's attribute [n_times], not an assertion error. *)
Theorem C6_assertion_iff_even_length_or_odd_delta (a : Args) :
  ((exists msg, EEGResNet_init a = Raise (AssertionError msg))
   <->
   ~ (final_pool_length a = Auto /\ n_times a = None)
   /\ (Z.even (first_filter_length a) = true
       \/ (0 <= n_first_filters a /\ 0 <= first_filter_length a
           /\ 0 <= n_chans a
           /\ exists name i o d,
                In (name, (i, o, d)) (requested_blocks a)
                /\ Z.odd (o - i) = true)))
  /\ (final_pool_length a = Auto -> n_times a = None ->
      EEGResNet_init a = Raise ValueError).
Proof.
  rewrite init_outcome, odd_request, <- time_known_false.
  unfold construction_error. split; [split |].
  - intros [msg E].
    destruct (time_known a); cbn [negb] in E; [| discriminate E].
    split; [discriminate |].
    destruct (Z.eqb_spec (first_filter_length a mod 2) 1) as [Hf | Hf];
      cbn [negb] in E.
    2: { left. rewrite Zmod_even in Hf.
         now destruct (Z.even (first_filter_length a)). }
    destruct (Z.ltb_spec (n_first_filters a) 0); [discriminate E |].
    destruct (Z.ltb_spec (first_filter_length a) 0); [discriminate E |].
    destruct (Z.ltb_spec (n_chans a) 0); [discriminate E |].
    cbn [orb] in E.
    destruct (Z.eqb_spec (n_first_filters a mod 2) 0) as [He | He];
      cbn [negb] in E.
    { destruct (n_outputs a <? 0); [discriminate E |].
      destruct (weights_init_case (activation a)); discriminate E. }
    right. repeat split; try assumption.
    rewrite Zmod_odd in He. now destruct (Z.odd (n_first_filters a)).
  - intros [Hk Hv].
    destruct (time_known a); [| now contradiction Hk]. cbn [negb].
    destruct Hv as [Hf | [Hn [Hf [Hc Hodd]]]].
    + replace (first_filter_length a mod 2 =? 1) with false; [cbn; eauto |].
      symmetry. apply Z.eqb_neq. rewrite Zmod_even, Hf. discriminate.
    + destruct (first_filter_length a mod 2 =? 1); cbn [negb]; [| eauto].
      destruct (Z.ltb_spec (n_first_filters a) 0); [lia |].
      destruct (Z.ltb_spec (first_filter_length a) 0); [lia |].
      destruct (Z.ltb_spec (n_chans a) 0); [lia |].
      cbn [orb].
      replace (n_first_filters a mod 2 =? 0) with false; [cbn; eauto |].
      symmetry. apply Z.eqb_neq. rewrite Zmod_odd, Hodd. discriminate.
  - intros Hauto Hnone.
    assert (Hk : time_known a = false) by (apply time_known_false; auto).
    rewrite Hk. reflexivity.
Qed.

(** C5.  A residual block keeps the temporal length: for channel counts,
    a kernel length [k] and a dilation [d] that are positive, with the
    product [(k-1)*d] exact on int64 and even (the constructor's
    assertion), both convolutions have stride 1 and padding
    [p = (k-1)*d/2] per side on the time axis, so that the output length
    [L + 2p - d*(k-1)] is [L] for every input length [L]. *)
Theorem C5_time_length_preserved (i o : Z) (d : Z * Z) (k : Z) (nl : string)
    (alpha e : Q) :
  0 < i -> 0 < o -> 0 < k -> 0 < fst d -> (k - 1) * fst d < 2 ^ 63 ->
  ((k - 1) * fst d) mod 2 = 0 -> (o - i) mod 2 = 0 ->
  exists blk c1 c2,
    ResidualBlock_init i o d k nl alpha e = Ok blk
    /\ conv_1 blk = Conv c1 /\ conv_2 blk = Conv c2
    /\ fst (stride c1) = 1 /\ fst (stride c2) = 1
    /\ fst (kernel_size c1) = k /\ fst (kernel_size c2) = k
    /\ fst (dilation c1) = fst d /\ fst (dilation c2) = fst d
    /\ 2 * fst (padding c1) = (k - 1) * fst d
    /\ 2 * fst (padding c2) = (k - 1) * fst d
    /\ forall L,
         L + 2 * fst (padding c1) - fst (dilation c1) * (fst (kernel_size c1) - 1)
         = L
         /\ conv_out_len c1 L = L /\ conv_out_len c2 L = L.
Proof.
  intros Hi Ho Hk Hd Hsmall Ht Hc. unfold ResidualBlock_init, imul64.
  cbv zeta. rewrite wrap64_small by nia.
  rewrite Ht, Hc. cbn [Z.eqb assert bind].
  rewrite (nn_Conv2d_ok i o) by (cbn [fst snd]; lia). cbn [bind].
  rewrite (nn_Conv2d_ok o o) by (cbn [fst snd]; lia). cbn [bind].
  assert (Hp : 2 * ((k - 1) * fst d / 2) = (k - 1) * fst d).
  { pose proof (Z.div_mod ((k - 1) * fst d) 2) as Hdm. lia. }
  do 3 eexists.
  repeat split;
    unfold conv_out_len;
    cbn [conv_1 conv_2 built_Conv2d padding dilation kernel_size stride
         fst snd];
    rewrite ?Z.div_1_r; lia.
Qed.

End Facts.

(** * Facts about the forward pass of a residual block *)

Section ForwardFacts.

Context `{TensorOps}.

Lemma init_n_pad_chans (i o : Z) (d : Z * Z) (k : Z) (nl : string)
    (alpha e : Q) (self : ResidualBlock) :
  ResidualBlock_init i o d k nl alpha e = Ok self ->
  n_pad_chans self = o - i /\ (o - i) mod 2 = 0.
Proof.
  unfold ResidualBlock_init. cbv zeta. intros Hs.
  destruct (imul64 (k - 1) (fst d) mod 2 =? 0); [| discriminate Hs].
  cbn [assert bind] in Hs.
  destruct (Z.eqb_spec ((o - i) mod 2) 0) as [E | E]; [| discriminate Hs].
  cbn [assert bind] in Hs.
  destruct (nn_Conv2d i o _ _ _ _ _); [| discriminate Hs].
  cbn [bind] in Hs.
  destruct (nn_Conv2d o o _ _ _ _ _); [| discriminate Hs].
  cbn [bind] in Hs. injection Hs as <-. auto.
Qed.

Lemma combine_repeat_pad {A : Type} (z : list A) (x : list (list A)) :
  map (fun s => fst s ++ fst (snd s) ++ snd (snd s))
    (combine (repeat z (List.length x)) (combine x (repeat z (List.length x))))
  = map (fun sample => z ++ sample ++ z) x.
Proof.
  induction x as [| s x IH]; cbn [List.length repeat combine map fst snd];
    [reflexivity |].
  now rewrite IH.
Qed.

(** The zeros built from the shape of [x] agree with [x] on every axis but
    the channel axis, so the concatenation goes through. *)
Lemma zeros_shapes (p : Z) (x : tensor R) :
  0 < p ->
  let zeros := repeat (zero_channels p x) (List.length x) in
  shape0 zeros = shape0 x /\ shape2 zeros = shape2 x
  /\ shape3 zeros = shape3 x.
Proof.
  intros Hp zeros. unfold zeros, shape0, shape2, shape3, zero_channels.
  rewrite repeat_length. split; [reflexivity |].
  destruct x as [| s x]; [split; reflexivity |].
  cbn [List.length repeat hd].
  destruct (Z.to_nat p) as [| p'] eqn:Ep; [lia |].
  cbn [repeat hd]. rewrite repeat_length.
  unfold shape2, shape3. cbn [hd]. rewrite !Nat2Z.id.
  split; [reflexivity |].
  destruct (hd [] s) as [| row rows]; [reflexivity |].
  cbn [List.length repeat hd]. now rewrite repeat_length.
Qed.

Lemma pad_skip_same (self : ResidualBlock) (x : tensor R) :
  n_pad_chans self = 0 -> pad_skip self x = Ok x.
Proof. unfold pad_skip. intros ->. reflexivity. Qed.

Lemma pad_skip_pads (self : ResidualBlock) (p : Z) (x : tensor R) :
  0 < p -> n_pad_chans self = 2 * p ->
  pad_skip self x
  = Ok (map (fun sample => zero_channels p x ++ sample ++ zero_channels p x)
          x).
Proof.
  intros Hp Hn. unfold pad_skip. rewrite Hn.
  destruct (Z.eqb_spec (2 * p) 0) as [E | _]; [lia |].
  cbn [negb]. replace (2 * p / 2) with p
    by (rewrite Z.mul_comm, Z.div_mul; [reflexivity | discriminate]).
  unfold new_zeros.
  replace ((shape0 x <? 0) || (p <? 0) || (shape2 x <? 0) || (shape3 x <? 0))
    with false.
  2: { unfold shape0, shape2, shape3. symmetry.
       repeat (apply orb_false_iff; split); apply Z.ltb_ge; lia. }
  replace (Z.to_nat (shape0 x)) with (List.length x)
    by (unfold shape0; now rewrite Nat2Z.id).
  fold (zero_channels p x). cbn [bind].
  destruct (zeros_shapes p x Hp) as [Hs0 [Hs2 Hs3]].
  unfold cat_dim1. rewrite Hs0, Hs2, Hs3, !Z.eqb_refl. cbn [andb].
  now rewrite combine_repeat_pad.
Qed.

Lemma zero_channels_length (p : Z) (x : tensor R) :
  List.length (zero_channels p x) = Z.to_nat p.
Proof. unfold zero_channels. apply repeat_length. Qed.

Lemma zero_channels_zero (p : Z) (x : tensor R) :
  Forall (Forall (Forall (eq rzero))) (zero_channels p x).
Proof.
  unfold zero_channels.
  apply Forall_forall. intros chan Hc. apply repeat_spec in Hc as ->.
  apply Forall_forall. intros row Hr. apply repeat_spec in Hr as ->.
  apply Forall_forall. intros v Hv. apply repeat_spec in Hv as ->.
  reflexivity.
Qed.

(** C1.  The forward computation of a residual block built for [i] input
    and [o >= i] output channels is
    [nonlinearity(skip(x) + B)], with
    [B = bn2(conv_2(nonlinearity(bn1(conv_1(x)))))] and [skip(x)] the input,
    zero-padded on the channel axis when [o > i]: the nonlinearity comes
    after the sum and not between [bn2] and the sum. *)
Theorem C1_forward_is_nonlinearity_of_skip_plus_branch
    (i o : Z) (d : Z * Z) (k : Z) (nl : string) (alpha e : Q)
    (self : ResidualBlock) (x : tensor R) :
  ResidualBlock_init i o d k nl alpha e = Ok self -> i <= o ->
  forward self x
  = Ok (call (nonlinearity self) (tadd (spec_skip i o x) (spec_branch self x))).
Proof.
  intros Hs Hio. apply init_n_pad_chans in Hs as [Hn Heven].
  unfold forward, spec_skip, spec_branch.
  destruct (Z.eqb_spec o i) as [-> | Hne].
  - rewrite pad_skip_same by lia. reflexivity.
  - pose proof (Z.div_mod (o - i) 2) as Hdm.
    rewrite (pad_skip_pads self ((o - i) / 2)) by lia.
    reflexivity.
Qed.

(** C2.  In the skip path of a residual block built for [i] input and [o]
    output channels: when [o = i] the input is used as it is; when
    [o = i + 2p] with [p > 0], every sample gets exactly [p] all-zero
    channels before and [p] after its own channels, so that an input with
    [i] channels per sample yields a skip tensor with [o]. *)
Theorem C2_skip_path_pads_symmetrically
    (i o : Z) (d : Z * Z) (k : Z) (nl : string) (alpha e : Q)
    (self : ResidualBlock) (x : tensor R) :
  ResidualBlock_init i o d k nl alpha e = Ok self ->
  (o = i -> pad_skip self x = Ok x)
  /\ (forall p, 0 < p -> o = i + 2 * p ->
        let zeros := zero_channels p x in
        let skip := map (fun sample => zeros ++ sample ++ zeros) x in
        pad_skip self x = Ok skip
        /\ Z.of_nat (List.length zeros) = p
        /\ Forall (Forall (Forall (eq rzero))) zeros
        /\ (Forall (fun sample => Z.of_nat (List.length sample) = i) x ->
            Forall (fun sample => Z.of_nat (List.length sample) = o) skip)).
Proof.
  intros Hs. apply init_n_pad_chans in Hs as [Hn _]. split.
  - intros ->. apply pad_skip_same. lia.
  - intros p Hp -> zeros skip. unfold skip, zeros. repeat split.
    + apply pad_skip_pads; [exact Hp | lia].
    + rewrite zero_channels_length. lia.
    + apply zero_channels_zero.
    + intros Hx. apply Forall_map. apply Forall_forall.
      intros sample Hin. rewrite Forall_forall in Hx.
      specialize (Hx sample Hin).
      rewrite !length_app, zero_channels_length. lia.
Qed.

End ForwardFacts.

(** * The claims on concrete inputs *)

Local Open Scope Q_scope.
Local Open Scope Z_scope.

(** The default configuration is accepted and yields the closed form. *)
Lemma example_constructed :
  EEGResNet_init example_args = Ok (constructed example_args).
Proof. vm_compute. reflexivity. Qed.

Lemma C1_witness :
  ResidualBlock_init 1 3 (1, 1) 3 "ELU" (1 # 10) (1 # 10000) = Ok example_block
  /\ 1 <= 3
  /\ forward example_block example_input
     = Ok (call (nonlinearity example_block)
             (tadd (spec_skip 1 3 example_input)
                (spec_branch example_block example_input))).
Proof.
  assert (Hs : ResidualBlock_init 1 3 (1, 1) 3 "ELU" (1 # 10) (1 # 10000)
               = Ok example_block) by reflexivity.
  assert (Hio : 1 <= 3) by lia.
  split; [exact Hs |]. split; [exact Hio |].
  exact (C1_forward_is_nonlinearity_of_skip_plus_branch
           1 3 (1, 1) 3 "ELU" (1 # 10) (1 # 10000) example_block
           example_input Hs Hio).
Defined.

(** The value of that forward pass in the concrete instance: the input
    channel between two zero channels, plus the branch. *)
Example forward_example :
  forward example_block example_input
  = Ok [[[[1; 2]; [3; 4]]; [[2; 4]; [6; 8]]; [[1; 2]; [3; 4]]]].
Proof. reflexivity. Qed.

(** A block from 3 to 1 channels passes the constructor's assertions, and
    its forward pass fails in the skip path. *)
Example forward_shrinking_block :
  ResidualBlock_init 3 1 (1, 1) 3 "ELU" (1 # 10) (1 # 10000)
  = Ok (res_block 3 1 (1, 1))
  /\ forward (res_block 3 1 (1, 1)) example_input
     = Raise (RuntimeError "negative dimension").
Proof. split; reflexivity. Qed.

Lemma C2_witness :
  ResidualBlock_init 1 3 (1, 1) 3 "ELU" (1 # 10) (1 # 10000) = Ok example_block
  /\ (3 = 1 -> pad_skip example_block example_input = Ok example_input)
  /\ (forall p, 0 < p -> 3 = 1 + 2 * p ->
        let zeros := zero_channels p example_input in
        let skip := map (fun sample => zeros ++ sample ++ zeros) example_input in
        pad_skip example_block example_input = Ok skip
        /\ Z.of_nat (List.length zeros) = p
        /\ Forall (Forall (Forall (eq rzero))) zeros
        /\ (Forall (fun sample => Z.of_nat (List.length sample) = 1)
              example_input ->
            Forall (fun sample => Z.of_nat (List.length sample) = 3) skip)).
Proof.
  assert (Hs : ResidualBlock_init 1 3 (1, 1) 3 "ELU" (1 # 10) (1 # 10000)
               = Ok example_block) by reflexivity.
  split; [exact Hs |].
  exact (C2_skip_path_pads_symmetrically
           1 3 (1, 1) 3 "ELU" (1 # 10) (1 # 10000) example_block
           example_input Hs).
Defined.

(** The skip tensors of a block from 1 to 3 channels and of a block from 2
    to 2 channels. *)
Example pad_skip_example :
  pad_skip example_block example_input
  = Ok [[[[0; 0]; [0; 0]]; [[1; 2]; [3; 4]]; [[0; 0]; [0; 0]]]]
  /\ pad_skip (res_block 2 2 (1, 1)) [[[[1; 2]]; [[3; 4]]]]
     = Ok [[[[1; 2]]; [[3; 4]]]].
Proof. split; reflexivity. Qed.

Lemma C3_witness :
  EEGResNet_init example_args = Ok (constructed example_args)
  /\ (let m := constructed example_args in
      (forall k, 0 <= k < 2 -> channels_at m 1 k = Some (20, 20))
      /\ channels_at m 2 0 = Some (20, 40)
      /\ (forall k, 1 <= k < 2 -> channels_at m 2 k = Some (40, 40))
      /\ channels_at m 3 0 = Some (40, 60)
      /\ (forall k, 1 <= k < 2 -> channels_at m 3 k = Some (60, 60))
      /\ (forall b k, 4 <= b <= 7 -> k = 0 \/ 1 <= k < 2 ->
            channels_at m b k = Some (60, 60))).
Proof.
  assert (Hm : EEGResNet_init example_args = Ok (constructed example_args))
    by (vm_compute; reflexivity).
  split; [exact Hm |].
  exact (C3_channel_progression example_args (constructed example_args) Hm).
Defined.

(** C4, as stated, fails: with the default hyperparameters the last block
    and the final pooling get the dilation 64, not [2^5 = 32]. *)
Lemma C4_counterexample :
  EEGResNet_init example_args_pool = Ok (constructed example_args_pool)
  /\ dilation_at (constructed example_args_pool) 7 0 = Some (64, 1)
  /\ get_module "mean_pool" (_modules (constructed example_args_pool))
     = Some (Layer (Helper (AvgPool2dWithConv (10, 1) (1, 1) (64, 1))))
  /\ dilation_at (constructed example_args_pool) 7 0 <> Some (2 ^ 5, 1).
Proof.
  repeat split; try (vm_compute; reflexivity).
  intros E. vm_compute in E. discriminate E.
Qed.

Lemma C4_witness :
  EEGResNet_init example_args_pool = Ok (constructed example_args_pool)
  /\ (let m := constructed example_args_pool in
      (forall b k, is_unit 2 b k -> dilation_at m b k = Some (2 ^ (b - 1), 1))
      /\ dilation_at m 7 0 = Some (64, 1)
      /\ (forall p, Length 10 = Length p ->
            get_module "mean_pool" (_modules m)
            = Some (Layer (Helper (AvgPool2dWithConv (p, 1) (1, 1) (64, 1)))))).
Proof.
  assert (Hm : EEGResNet_init example_args_pool
               = Ok (constructed example_args_pool))
    by (vm_compute; reflexivity).
  split; [exact Hm |].
  exact (C4_dilation_doubles_at_each_boundary example_args_pool
           (constructed example_args_pool) Hm).
Defined.

Lemma C5_witness :
  0 < 40 /\ 0 < 60 /\ 0 < 3 /\ 0 < fst (4, 1)
  /\ (3 - 1) * fst (4, 1) < 2 ^ 63
  /\ ((3 - 1) * fst (4, 1)) mod 2 = 0 /\ (60 - 40) mod 2 = 0
  /\ exists blk c1 c2,
       ResidualBlock_init 40 60 (4, 1) 3 "ELU" (1 # 10) (1 # 10000) = Ok blk
       /\ conv_1 blk = Conv c1 /\ conv_2 blk = Conv c2
       /\ fst (stride c1) = 1 /\ fst (stride c2) = 1
       /\ fst (kernel_size c1) = 3 /\ fst (kernel_size c2) = 3
       /\ fst (dilation c1) = 4 /\ fst (dilation c2) = 4
       /\ 2 * fst (padding c1) = 8 /\ 2 * fst (padding c2) = 8
       /\ forall L,
            L + 2 * fst (padding c1)
            - fst (dilation c1) * (fst (kernel_size c1) - 1) = L
            /\ conv_out_len c1 L = L /\ conv_out_len c2 L = L.
Proof.
  assert (Hi : 0 < 40) by reflexivity.
  assert (Ho : 0 < 60) by reflexivity.
  assert (Hk : 0 < 3) by reflexivity.
  assert (Hd : 0 < fst (4, 1)) by reflexivity.
  assert (Hs : (3 - 1) * fst (4, 1) < 2 ^ 63) by reflexivity.
  assert (Ht : ((3 - 1) * fst (4, 1)) mod 2 = 0) by reflexivity.
  assert (Hc : (60 - 40) mod 2 = 0) by reflexivity.
  repeat (split; [assumption |]).
  exact (C5_time_length_preserved 40 60 (4, 1) 3 "ELU" (1 # 10) (1 # 10000)
           Hi Ho Hk Hd Hs Ht Hc).
Defined.

(** A dilation whose product with [k - 1] does not fit int64: the product
    wraps, the assertion on its parity passes, and the block is built with a
    negative padding. *)
Example residual_block_wrapped_time_padding :
  exists blk c1,
    ResidualBlock_init 2 2 (2 ^ 62, 1) 3 "ELU" (1 # 10) (1 # 10000) = Ok blk
    /\ conv_1 blk = Conv c1 /\ padding c1 = (- 2 ^ 62, 0).
Proof. do 2 eexists. repeat split. Qed.

(** C6, as stated, fails.  With [final_pool_length] ["auto"] and no time
    length the constructor raises the [ValueError] of the mixin's
    attribute, and no assertion error.  And with -3 first filters the
    first unit of block 2 is to go from -3 to -6 channels, an odd
    difference, but the constructor fails before, on the first
    convolution, and not with an assertion error. *)
Lemma C6_counterexample :
  ((final_pool_length (default_args 22 4 None Auto) = Auto
    /\ n_times (default_args 22 4 None Auto) = None)
   /\ EEGResNet_init (default_args 22 4 None Auto) = Raise ValueError
   /\ ~ (exists msg,
           EEGResNet_init (default_args 22 4 None Auto)
           = Raise (AssertionError msg)))
  /\ (In (res_name 2 0, (-3, -6, (2, 1)))
        (requested_blocks example_args_negative)
      /\ Z.odd (-6 - -3) = true
      /\ EEGResNet_init example_args_negative
         = Raise (RuntimeError "negative dimension")
      /\ ~ (exists msg,
              EEGResNet_init example_args_negative
              = Raise (AssertionError msg))).
Proof.
  split.
  - split; [split; reflexivity |]. split; [reflexivity |].
    intros [msg E]. discriminate E.
  - split; [vm_compute; right; right; left; reflexivity |].
    split; [reflexivity |]. split; [reflexivity |].
    intros [msg E]. discriminate E.
Qed.

Lemma C6_witness :
  (exists msg, EEGResNet_init example_args_odd = Raise (AssertionError msg))
  /\ (final_pool_length (default_args 22 4 None Auto) = Auto ->
      n_times (default_args 22 4 None Auto) = None ->
      EEGResNet_init (default_args 22 4 None Auto) = Raise ValueError).
Proof.
  split.
  - apply (proj1 (C6_assertion_iff_even_length_or_odd_delta example_args_odd)).
    split; [intros [_ E]; discriminate E |].
    right. repeat (split; [discriminate |]).
    exists (res_name 2 0), 21, 42, (2, 1). split; [| reflexivity].
    vm_compute. right. right. left. reflexivity.
  - exact (proj2 (C6_assertion_iff_even_length_or_odd_delta
                    (default_args 22 4 None Auto))).
Defined.

(** The failures of the constructor, each on a concrete configuration, and
    the assertion of [_ResidualBlock] on the time padding, which the
    constructor of the network never trips, its kernel length being 3. *)
Example init_even_first_filter_length :
  EEGResNet_init
    (mkArgs 22 4 (Some 1000) Auto 20 2 4 "ELU" true (1 # 10) (1 # 10000)
       Kaiming)
  = Raise (AssertionError "").
Proof. reflexivity. Qed.

Example init_auto_pool_without_n_times :
  EEGResNet_init (default_args 22 4 None Auto) = Raise ValueError.
Proof. reflexivity. Qed.

Example init_odd_channel_delta :
  EEGResNet_init
    (mkArgs 22 4 (Some 1000) Auto 21 2 3 "ELU" true (1 # 10) (1 # 10000)
       Kaiming)
  = Raise (AssertionError
      "Need even number of extra channels in order to be able to pad correctly").
Proof. vm_compute. reflexivity. Qed.

Example init_negative_first_filters :
  EEGResNet_init example_args_negative
  = Raise (RuntimeError "negative dimension").
Proof. reflexivity. Qed.

Example init_negative_outputs :
  EEGResNet_init
    (mkArgs 22 (-4) (Some 1000) Auto 20 2 3 "ELU" true (1 # 10) (1 # 10000)
       Kaiming)
  = Raise (RuntimeError "negative dimension").
Proof. vm_compute. reflexivity. Qed.

Example residual_block_odd_time_padding :
  ResidualBlock_init 2 2 (1, 1) 4 "ELU" (1 # 10) (1 # 10000)
  = Raise (AssertionError "").
Proof. reflexivity. Qed.

(** C7, as stated, fails: with the default hyperparameters [conv_time] has
    1 input channel and 20 output channels. *)
Lemma C7_counterexample :
  split_first_layer example_args = true
  /\ EEGResNet_init example_args = Ok (constructed example_args)
  /\ exists c,
       get_module "conv_time" (_modules (constructed example_args))
       = Some (Layer (Conv c))
       /\ in_channels c = 1 /\ out_channels c = 20
       /\ n_first_filters example_args = 20
       /\ in_channels c <> out_channels c
       /\ in_channels c <> n_first_filters example_args.
Proof.
  split; [reflexivity |]. split; [vm_compute; reflexivity |].
  eexists. split; [vm_compute; reflexivity |].
  cbn. repeat split; discriminate.
Qed.

Lemma C7_witness :
  split_first_layer example_args = true
  /\ EEGResNet_init example_args = Ok (constructed example_args)
  /\ exists c,
       get_module "conv_time" (_modules (constructed example_args))
       = Some (Layer (Conv c))
       /\ in_channels c = 1
       /\ out_channels c = 20
       /\ kernel_size c = (3, 1)
       /\ padding c = (1, 0).
Proof.
  assert (Hs : split_first_layer example_args = true) by reflexivity.
  assert (Hm : EEGResNet_init example_args = Ok (constructed example_args))
    by (vm_compute; reflexivity).
  split; [exact Hs |]. split; [exact Hm |].
  exact (C7_conv_time_of_split_first_layer example_args
           (constructed example_args) Hs Hm).
Defined.

Lemma C8_witness :
  EEGResNet_init example_args = Ok (constructed example_args)
  /\ Forall (initialised_as Kaiming) (all_layers (constructed example_args)).
Proof.
  assert (Hm : EEGResNet_init example_args = Ok (constructed example_args))
    by (vm_compute; reflexivity).
  split; [exact Hm |].
  exact (C8_weights_initialised example_args (constructed example_args) Hm).
Defined.

(** An activation class whose name contains [Conv] makes the
    initialisation pass look for a weight it does not have. *)
Example init_activation_named_like_a_convolution :
  EEGResNet_init (with_activation "ConvAct" example_args)
  = Raise (AttributeError "weight").
Proof. vm_compute. reflexivity. Qed.

Lemma C9_witness :
  EEGResNet_init (with_batch_norm_epsilon (1 # 10) example_args)
  = Ok (constructed (with_batch_norm_epsilon (1 # 10) example_args))
  /\ modules_of (EEGResNet_init (with_batch_norm_epsilon (1 # 10) example_args))
     = modules_of
         (EEGResNet_init (with_batch_norm_epsilon (1 # 1000) example_args))
  /\ forall m,
       EEGResNet_init (with_batch_norm_epsilon (1 # 10) example_args) = Ok m ->
       EEGResNet_init (with_batch_norm_epsilon (1 # 1000) example_args)
       = Ok {| attrs := with_batch_norm_epsilon (1 # 1000) example_args;
               mapping := mapping m; _modules := _modules m;
               training := training m |}
       /\ (exists b, get_module "bnorm" (_modules m) = Some (Layer (BatchNorm b))
                     /\ eps b = (1 # 100000)%Q)
       /\ (forall name blk, In (name, Block blk) (_modules m) ->
             exists b1 b2, bn1 blk = BatchNorm b1 /\ bn2 blk = BatchNorm b2
                           /\ eps b1 = (1 # 10000)%Q
                           /\ eps b2 = (1 # 10000)%Q).
Proof.
  split; [vm_compute; reflexivity |].
  exact (C9_batch_norm_epsilon_unused example_args (1 # 10) (1 # 1000)).
Defined.

Lemma C10_witness :
  EEGResNet_init (with_activation "ELU" example_args)
  = Ok (constructed (with_activation "ELU" example_args))
  /\ EEGResNet_init (with_activation "ReLU" example_args)
     = Ok (constructed (with_activation "ReLU" example_args))
  /\ get_module "conv_nonlin"
       (_modules (constructed (with_activation "ELU" example_args)))
     = Some (Layer (Activation "ELU"))
  /\ _modules (constructed (with_activation "ReLU" example_args))
     = add_module "conv_nonlin" (Layer (Activation "ReLU"))
         (_modules (constructed (with_activation "ELU" example_args)))
  /\ (forall name blk,
        In (name, Block blk)
          (_modules (constructed (with_activation "ELU" example_args))) ->
        nonlinearity blk = Activation "ELU")
  /\ (forall name blk,
        In (name, Block blk)
          (_modules (constructed (with_activation "ReLU" example_args))) ->
        nonlinearity blk = Activation "ELU").
Proof.
  assert (Hm1 : EEGResNet_init (with_activation "ELU" example_args)
                = Ok (constructed (with_activation "ELU" example_args)))
    by (vm_compute; reflexivity).
  assert (Hm2 : EEGResNet_init (with_activation "ReLU" example_args)
                = Ok (constructed (with_activation "ReLU" example_args)))
    by (vm_compute; reflexivity).
  split; [exact Hm1 |]. split; [exact Hm2 |].
  exact (C10_activation_reaches_conv_nonlin_only example_args "ELU" "ReLU"
           _ _ Hm1 Hm2).
Defined.

(** * Further facts about the constructors *)

Section MoreFacts.

Context `{ParamOps}.

Lemma final_names (a : Args) :
  map fst (final_modules a) = map fst (raw_modules a).
Proof. unfold final_modules. rewrite map_map. reflexivity. Qed.

Lemma entry_names_unfold (L : Z) :
  map entry_name (block_keys L) = res_names L.
Proof.
  unfold block_keys, res_names. cbn [flat_map].
  rewrite !app_nil_r, !map_app.
  change (unit_indices 1 L) with (range 0 L).
  repeat match goal with
         | |- context [unit_indices ?b L] =>
             change (unit_indices b L) with (0 :: range 1 L)
         end.
  cbn [map]. rewrite !map_map. unfold entry_name. cbn [fst snd].
  rewrite <- !app_comm_cons. reflexivity.
Qed.

Lemma get_module_none {M : Type} (name : string) (ms : list (string * M)) :
  ~ In name (map fst ms) -> get_module name ms = None.
Proof.
  induction ms as [| [n x] ms IH]; cbn [get_module map fst In];
    intros Hn; [reflexivity |].
  destruct (String.eqb_spec n name) as [-> | Hne].
  - exfalso. apply Hn. now left.
  - apply IH. intros Hin. apply Hn. now right.
Qed.

Lemma length_range (lo hi : Z) : List.length (range lo hi) = Z.to_nat (hi - lo).
Proof. unfold range. now rewrite length_map, length_seq. Qed.

Lemma length_block_keys (L : Z) :
  Z.of_nat (List.length (block_keys L)) = if 1 <=? L then 7 * L else 6.
Proof.
  unfold block_keys. cbn [flat_map]. rewrite !length_app, !length_map.
  change (unit_indices 1 L) with (range 0 L).
  repeat match goal with
         | |- context [unit_indices ?b L] =>
             change (unit_indices b L) with (0 :: range 1 L)
         end.
  cbn [List.length]. rewrite !length_range.
  destruct (Z.leb_spec 1 L); lia.
Qed.


(** X2.  The children of a constructed model come in this order, which is
    the order in which the sequential container applies them: the rank
    normalisation, the first convolution (three children with
    [split_first_layer], one without), the batch normalisation and the
    nonlinearity, the residual units block by block, the pooling and the
    final layer. *)
Theorem X2_child_order (a : Args) (m : EEGResNet) :
  EEGResNet_init a = Ok m ->
  map fst (_modules m)
  = ["ensuredims"]
    ++ (if split_first_layer a
        then ["dimshuffle"; "conv_time"; "conv_spat"]
        else ["conv_time"])
    ++ ["bnorm"; "conv_nonlin"]
    ++ map (res_name 1) (range 0 (n_layers_per_block a))
    ++ flat_map (fun b => res_name b 0
                          :: map (res_name b) (range 1 (n_layers_per_block a)))
         [2; 3; 4; 5; 6; 7]
    ++ ["mean_pool"; "final_layer"].
Proof.
  intros Hm. apply init_success in Hm as [_ [_ ->]]. cbn [_modules].
  rewrite final_names, raw_names, head_names, entry_names_unfold.
  unfold res_names. destruct (split_first_layer a);
    cbn [app]; rewrite <- ?app_assoc; reflexivity.
Qed.

Lemma blocks_of_entries (f : W -> W) (n : Z) (ks : list (Z * Z)) :
  List.length
    (flat_map (fun nm : string * module =>
                 match snd nm with Block b => [b] | _ => [] end)
       (map (fun nm => (fst nm, initialised_module f (snd nm)))
          (map (res_entry n) ks)))
  = List.length ks.
Proof.
  induction ks as [| bk ks IH]; [reflexivity |].
  simpl. f_equal. exact IH.
Qed.

Lemma residual_blocks_final (a : Args) :
  List.length
    (flat_map (fun nm : string * module =>
                 match snd nm with Block b => [b] | _ => [] end)
       (final_modules a))
  = List.length (block_keys (n_layers_per_block a)).
Proof.
  unfold final_modules, raw_modules.
  rewrite !map_app, !flat_map_app, !length_app.
  replace (List.length
             (flat_map (fun nm : string * module =>
                          match snd nm with Block b => [b] | _ => [] end)
                (map (fun nm => (fst nm,
                                 initialised_module (conv_weight_init_fn a)
                                   (snd nm)))
                   (head_modules a)))) with 0%nat
    by (unfold head_modules; destruct (split_first_layer a); reflexivity).
  replace (List.length
             (flat_map (fun nm : string * module =>
                          match snd nm with Block b => [b] | _ => [] end)
                (map (fun nm => (fst nm,
                                 initialised_module (conv_weight_init_fn a)
                                   (snd nm)))
                   (tail_modules a)))) with 0%nat
    by (unfold tail_modules; destruct (final_pool_length a); reflexivity).
  rewrite Nat.add_0_l, Nat.add_0_r.
  apply blocks_of_entries.
Qed.

(** X3.  A constructed model has [7 * n_layers_per_block] residual blocks
    when [n_layers_per_block >= 1]; when it is 0 or negative, block 1 is
    empty and each of the blocks 2 to 7 still has its first unit, 6 blocks
    in all. *)
Theorem X3_number_of_residual_blocks (a : Args) (m : EEGResNet) :
  EEGResNet_init a = Ok m ->
  Z.of_nat (List.length (residual_blocks m))
  = if 1 <=? n_layers_per_block a then 7 * n_layers_per_block a else 6.
Proof.
  intros Hm. apply init_success in Hm as [_ [_ ->]].
  unfold residual_blocks. cbn [_modules].
  rewrite residual_blocks_final. apply length_block_keys.
Qed.

(** X4.  The name format [res_{:d}_{:d}] is injective: two pairs of block
    and layer numbers with the same name are the same pair. *)
Theorem X4_res_name_injective (b1 k1 b2 k2 : Z) :
  res_name b1 k1 = res_name b2 k2 <-> b1 = b2 /\ k1 = k2.
Proof.
  split.
  - apply res_name_inj.
  - intros [-> ->]. reflexivity.
Qed.

(** X5.  A construction that returns was given an even number of first
    filters, an odd first filter length and, under automatic pooling, a
    known time length; the object stores the arguments it was given and is
    in training mode. *)
Theorem X5_what_a_returned_model_tells (a : Args) (m : EEGResNet) :
  EEGResNet_init a = Ok m ->
  Z.even (n_first_filters a) = true
  /\ Z.odd (first_filter_length a) = true
  /\ (final_pool_length a = Auto -> exists t, n_times a = Some t)
  /\ attrs m = a
  /\ training m = true.
Proof.
  intros Hm. apply init_success in Hm as [Hp [_ ->]].
  apply construction_error_none in Hp as [Hpool [Hf [Hn _]]].
  rewrite Zmod_even in Hn. rewrite Zmod_odd in Hf.
  repeat split.
  - now destruct (Z.even (n_first_filters a)).
  - now destruct (Z.odd (first_filter_length a)).
  - intros Hauto. unfold time_known in Hpool. rewrite Hauto in Hpool.
    destruct (n_times a) as [t |]; [eauto | discriminate].
Qed.

(** X6.  The message of an assertion error of the constructor tells its
    cause.  An empty message comes from the two checks on the arguments
    (unknown time length under automatic pooling, or an even first filter
    length); the message about the extra channels comes from a residual
    block, and then those two checks passed and the number of first
    filters is odd. *)
Theorem X6_assertion_message_tells_cause (a : Args) (msg : string) :
  EEGResNet_init a = Raise (AssertionError msg) ->
  (msg = ""
   /\ ((final_pool_length a = Auto /\ n_times a = None)
       \/ Z.even (first_filter_length a) = true))
  \/ (msg = need_even_message
      /\ Z.odd (n_first_filters a) = true
      /\ Z.odd (first_filter_length a) = true
      /\ (final_pool_length a = Auto -> n_times a <> None)).
Proof.
  rewrite init_outcome. unfold construction_error.
  destruct (time_known a) eqn:Hk; cbn [negb]; [| discriminate].
  destruct (Z.eqb_spec (first_filter_length a mod 2) 1) as [Hf | Hf];
    cbn [negb].
  2: { intros [= <-]. left. split; [reflexivity |]. right.
       rewrite Zmod_even in Hf.
       now destruct (Z.even (first_filter_length a)). }
  destruct ((n_first_filters a <? 0) || (first_filter_length a <? 0)
            || (n_chans a <? 0)); [discriminate |].
  destruct (Z.eqb_spec (n_first_filters a mod 2) 0) as [He | He];
    cbn [negb].
  { destruct (n_outputs a <? 0); [discriminate |].
    destruct (weights_init_case (activation a)); discriminate. }
  intros [= <-]. right.
  rewrite Zmod_odd in He. rewrite Zmod_odd in Hf.
  repeat split.
  - now destruct (Z.odd (n_first_filters a)).
  - now destruct (Z.odd (first_filter_length a)).
  - intros Hauto Hnone.
    assert (Hk' : time_known a = false) by (apply time_known_false; auto).
    congruence.
Qed.

(** X7.  The final layer of a constructed model is the last child; it
    holds a 1x1 convolution from [3 * n_first_filters] channels (the
    factors 2 and 1.5 leave no rounding) to [n_outputs], with a bias set
    to 0, followed by the squeeze. *)
Theorem X7_classifier (a : Args) (m : EEGResNet) :
  EEGResNet_init a = Ok m ->
  exists c,
    get_module "final_layer" (_modules m)
    = Some (Sequential [("conv_classifier", Conv c);
                        ("squeeze", Helper SqueezeFinalOutput)])
    /\ in_channels c = 3 * n_first_filters a
    /\ out_channels c = n_outputs a
    /\ kernel_size c = (1, 1)
    /\ conv_weight c
       = conv_weight_init_fn a
           (fresh_param [n_outputs a; 3 * n_first_filters a; 1; 1])
    /\ conv_bias c = Some (constant_ (fresh_param [n_outputs a]) 0)
    /\ last (map fst (_modules m)) "" = "final_layer".
Proof.
  intros Hm. apply init_success in Hm as [_ [_ ->]]. cbn [_modules].
  assert (Hlast : last (map fst (final_modules a)) "" = "final_layer").
  { rewrite final_names, raw_names.
    replace (map fst (head_modules a)
             ++ map entry_name (block_keys (n_layers_per_block a))
             ++ ["mean_pool"; "final_layer"])
      with ((map fst (head_modules a)
             ++ map entry_name (block_keys (n_layers_per_block a))
             ++ ["mean_pool"]) ++ ["final_layer"])
      by (rewrite <- !app_assoc; reflexivity).
    apply last_last. }
  assert (Hin : In ("final_layer",
                    Sequential
                      [("conv_classifier",
                        Conv (built_Conv2d (width_after (n_first_filters a) 7)
                                (n_outputs a) (1, 1) (1, 1) (0, 0) (1, 1)
                                true));
                       ("squeeze", Helper SqueezeFinalOutput)])
                  (raw_modules a)).
  { apply in_raw_tail. unfold tail_modules. right. now left. }
  rewrite (final_lookup a _ _ Hin).
  change (width_after (n_first_filters a) 7)
    with (int_1_5_times (int_2_times (n_first_filters a))).
  rewrite int_1_5_of_double.
  eexists. split; [reflexivity |].
  cbn [in_channels out_channels kernel_size conv_weight conv_bias
       initialised set_weight set_bias built_Conv2d fst snd].
  repeat split. exact Hlast.
Qed.

(** X8.  With [split_first_layer] the second convolution [conv_spat] mixes
    the channels: [n_first_filters] input and output channels, kernel
    [(1, n_chans)], no bias; it follows the axis reordering
    [dimshuffle]. *)
Theorem X8_conv_spat_of_split_first_layer (a : Args) (m : EEGResNet) :
  split_first_layer a = true -> EEGResNet_init a = Ok m ->
  get_module "dimshuffle" (_modules m)
  = Some (Layer (Rearrange "batch C T 1 -> batch 1 T C"))
  /\ exists c,
       get_module "conv_spat" (_modules m) = Some (Layer (Conv c))
       /\ in_channels c = n_first_filters a
       /\ out_channels c = n_first_filters a
       /\ kernel_size c = (1, n_chans a)
       /\ stride c = (1, 1)
       /\ padding c = (0, 0)
       /\ conv_bias c = None.
Proof.
  intros Hs Hm. apply init_success in Hm as [_ [_ ->]]. cbn [_modules].
  assert (Hd : In ("dimshuffle",
                   Layer (Rearrange "batch C T 1 -> batch 1 T C"))
                 (raw_modules a)).
  { apply in_raw_head. unfold head_modules. rewrite Hs. cbn [app].
    right. left. reflexivity. }
  assert (Hc : In ("conv_spat",
                   Layer (Conv (built_Conv2d (n_first_filters a)
                                  (n_first_filters a) (1, n_chans a) (1, 1)
                                  (0, 0) (1, 1) false)))
                 (raw_modules a)).
  { apply in_raw_head. unfold head_modules. rewrite Hs. cbn [app].
    right. right. right. left. reflexivity. }
  rewrite (final_lookup a _ _ Hd), (final_lookup a _ _ Hc). cbn.
  split; [reflexivity |]. eexists. repeat split.
Qed.

(** X9.  Without [split_first_layer] there is one first convolution,
    [conv_time], from [n_chans] to [n_first_filters] channels, with kernel
    [(first_filter_length, 1)] and no bias; no child is called
    [dimshuffle] or [conv_spat]. *)
Theorem X9_single_first_convolution (a : Args) (m : EEGResNet) :
  split_first_layer a = false -> EEGResNet_init a = Ok m ->
  get_module "dimshuffle" (_modules m) = None
  /\ get_module "conv_spat" (_modules m) = None
  /\ exists c,
       get_module "conv_time" (_modules m) = Some (Layer (Conv c))
       /\ in_channels c = n_chans a
       /\ out_channels c = n_first_filters a
       /\ kernel_size c = (first_filter_length a, 1)
       /\ padding c = (first_filter_length a / 2, 0)
       /\ conv_bias c = None.
Proof.
  intros Hs Hm. apply init_success in Hm as [_ [_ ->]]. cbn [_modules].
  assert (Hnone : forall name,
            name = "dimshuffle" \/ name = "conv_spat" ->
            get_module name (final_modules a) = None).
  { intros name Hname. apply get_module_none.
    rewrite final_names, raw_names, head_names, Hs.
    intros Hin. apply in_app_or in Hin as [Hin | Hin];
      [| apply in_app_or in Hin as [Hin | Hin]].
    - cbn [In] in Hin. destruct Hname; subst; intuition discriminate.
    - apply entry_name_not_fixed in Hin as [t E].
      destruct Hname; subst; discriminate.
    - cbn [In] in Hin. destruct Hname; subst; intuition discriminate. }
  split; [apply Hnone; now left |]. split; [apply Hnone; now right |].
  assert (Hc : In ("conv_time",
                   Layer (Conv (built_Conv2d (n_chans a) (n_first_filters a)
                                  (first_filter_length a, 1) (1, 1)
                                  (first_filter_length a / 2, 0) (1, 1)
                                  false)))
                 (raw_modules a)).
  { apply in_raw_head. unfold head_modules. rewrite Hs. cbn [app].
    right. left. reflexivity. }
  rewrite (final_lookup a _ _ Hc). cbn. eexists. repeat split.
Qed.

Lemma raw_modules_alpha (alpha : Q) (a : Args) :
  raw_modules (with_batch_norm_alpha alpha a)
  = add_module "bnorm"
      (Layer (BatchNorm (nn_BatchNorm2d (n_first_filters a) alpha
                           (1 # 100000)%Q)))
      (raw_modules a).
Proof.
  unfold raw_modules, head_modules, with_batch_norm_alpha.
  cbn [split_first_layer n_first_filters first_filter_length n_chans
       batch_norm_alpha activation n_layers_per_block].
  destruct (split_first_layer a); reflexivity.
Qed.

(** X10.  The argument [batch_norm_alpha] reaches the first batch
    normalisation [bnorm] and nothing else: of two constructions that
    differ in it alone, the children of the second are those of the first
    with [bnorm] replaced, and both batch normalisations of every residual
    block have momentum 0.1 whatever the argument. *)
Theorem X10_batch_norm_alpha_reaches_bnorm_only
    (a : Args) (alpha1 alpha2 : Q) (m1 m2 : EEGResNet) :
  EEGResNet_init (with_batch_norm_alpha alpha1 a) = Ok m1 ->
  EEGResNet_init (with_batch_norm_alpha alpha2 a) = Ok m2 ->
  (exists b, get_module "bnorm" (_modules m1) = Some (Layer (BatchNorm b))
             /\ momentum b = alpha1
             /\ num_features b = n_first_filters a)
  /\ (exists b, _modules m2
                = add_module "bnorm" (Layer (BatchNorm b)) (_modules m1)
                /\ momentum b = alpha2)
  /\ (forall name blk, In (name, Block blk) (_modules m1) ->
        exists b1 b2, bn1 blk = BatchNorm b1 /\ bn2 blk = BatchNorm b2
                      /\ momentum b1 = (1 # 10)%Q
                      /\ momentum b2 = (1 # 10)%Q).
Proof.
  intros Hm1 Hm2.
  apply init_success in Hm1 as [_ [_ ->]].
  apply init_success in Hm2 as [_ [_ ->]]. cbn [_modules].
  split; [| split].
  - set (a1 := with_batch_norm_alpha alpha1 a).
    assert (Hin : In ("bnorm",
                      Layer (BatchNorm (nn_BatchNorm2d (n_first_filters a1)
                                          (batch_norm_alpha a1)
                                          (1 # 100000)%Q)))
                    (raw_modules a1)).
    { apply in_raw_head. unfold head_modules. apply in_or_app. right.
      apply in_or_app. right. now left. }
    rewrite (final_lookup a1 _ _ Hin). cbn. eexists. repeat split.
  - eexists. split.
    + unfold final_modules.
      change (raw_modules (with_batch_norm_alpha alpha2 a))
        with (raw_modules (with_batch_norm_alpha alpha2
                             (with_batch_norm_alpha alpha1 a))).
      rewrite (raw_modules_alpha alpha2 (with_batch_norm_alpha alpha1 a)).
      rewrite map_add_module. cbn [initialised_module initialised].
      reflexivity.
    + reflexivity.
  - intros name blk Hin. apply final_blocks in Hin as [i [o [d E]]].
    cbn in E. injection E as ->. cbn. do 2 eexists. repeat split.
Qed.

Lemma time_padding_of_block (b : Z) :
  1 <= b <= 7 -> imul64 (3 - 1) (fst (dilation_of_block b)) / 2 = 2 ^ (b - 1).
Proof.
  intros Hb. rewrite dilation_of_block_pow by exact Hb. cbn [fst].
  assert (Hpow : 1 <= 2 ^ (b - 1) <= 2 ^ 6).
  { split; [| apply Z.pow_le_mono_r; lia].
    pose proof (Z.pow_pos_nonneg 2 (b - 1)). lia. }
  unfold imul64. rewrite wrap64_small by lia.
  change (3 - 1) with 2. rewrite Z.mul_comm. apply Z.div_mul. discriminate.
Qed.

(** X11.  In a constructed model both convolutions of every unit of block
    [b] have kernel [(3, 1)], stride [(1, 1)] and a time padding equal to
    the block's dilation [2^(b-1)], so that every residual block returns
    the temporal length it is given. *)
Theorem X11_blocks_pad_by_their_dilation (a : Args) (m : EEGResNet) (b k : Z) :
  EEGResNet_init a = Ok m -> is_unit (n_layers_per_block a) b k ->
  exists blk c1 c2,
    res_at m b k = Some blk
    /\ conv_1 blk = Conv c1 /\ conv_2 blk = Conv c2
    /\ kernel_size c1 = (3, 1) /\ kernel_size c2 = (3, 1)
    /\ stride c1 = (1, 1) /\ stride c2 = (1, 1)
    /\ padding c1 = (2 ^ (b - 1), 0) /\ padding c2 = (2 ^ (b - 1), 0)
    /\ dilation c1 = (2 ^ (b - 1), 1) /\ dilation c2 = (2 ^ (b - 1), 1)
    /\ forall L, conv_out_len c1 L = L /\ conv_out_len c2 L = L.
Proof.
  intros Hm Hu. rewrite (res_at_final a m b k Hm Hu).
  assert (Hb : 1 <= b <= 7) by (unfold is_unit in Hu; lia).
  cbn [initialised_module res_block conv_1 conv_2 initialised built_Conv2d
       conv_bias conv_weight set_weight set_bias in_channels out_channels
       kernel_size stride padding dilation].
  rewrite (time_padding_of_block b Hb), (dilation_of_block_pow b Hb).
  cbn [fst snd].
  do 3 eexists. repeat split;
    unfold conv_out_len;
    cbn [padding dilation kernel_size stride fst snd];
    rewrite Z.div_1_r; lia.
Qed.

(** X12.  The first convolution [conv_time] of a constructed model returns
    the temporal length it is given: its kernel length is odd and its
    padding is half of it, rounded down. *)
Theorem X12_conv_time_keeps_length (a : Args) (m : EEGResNet) :
  EEGResNet_init a = Ok m ->
  exists c,
    get_module "conv_time" (_modules m) = Some (Layer (Conv c))
    /\ fst (kernel_size c) = first_filter_length a
    /\ fst (padding c) = first_filter_length a / 2
    /\ fst (stride c) = 1 /\ fst (dilation c) = 1
    /\ forall L, conv_out_len c L = L.
Proof.
  intros Hm. apply init_success in Hm as [Hp [_ ->]]. cbn [_modules].
  apply construction_error_none in Hp as [_ [Hf _]].
  pose proof (Z.div_mod (first_filter_length a) 2) as Hdm.
  destruct (split_first_layer a) eqn:Hs.
  - assert (Hin : In ("conv_time",
                      Layer (Conv (built_Conv2d 1 (n_first_filters a)
                                     (first_filter_length a, 1) (1, 1)
                                     (first_filter_length a / 2, 0) (1, 1)
                                     true)))
                    (raw_modules a)).
    { apply in_raw_head. unfold head_modules. rewrite Hs. cbn [app].
      right. right. left. reflexivity. }
    rewrite (final_lookup a _ _ Hin).
    eexists. split; [reflexivity |].
    unfold conv_out_len.
    cbn [initialised set_weight set_bias built_Conv2d conv_bias conv_weight
         in_channels out_channels padding dilation kernel_size stride
         fst snd].
    repeat split. intros L. rewrite Z.div_1_r. lia.
  - assert (Hin : In ("conv_time",
                      Layer (Conv (built_Conv2d (n_chans a) (n_first_filters a)
                                     (first_filter_length a, 1) (1, 1)
                                     (first_filter_length a / 2, 0) (1, 1)
                                     false)))
                    (raw_modules a)).
    { apply in_raw_head. unfold head_modules. rewrite Hs. cbn [app].
      right. left. reflexivity. }
    rewrite (final_lookup a _ _ Hin).
    eexists. split; [reflexivity |].
    unfold conv_out_len.
    cbn [initialised set_weight set_bias built_Conv2d conv_bias conv_weight
         in_channels out_channels padding dilation kernel_size stride
         fst snd].
    repeat split. intros L. rewrite Z.div_1_r. lia.
Qed.

(** X13.  The constructor of a residual block checks the time padding
    first and the channel counts second, and both before it builds a
    layer: an odd [(k-1) * dilation[0]] raises an assertion error without
    message whatever the channel counts; otherwise an odd [out - in] raises
    the one about the extra channels; a block that is built had both even;
    and an odd kernel length passes the first check for every dilation. *)
Theorem X13_residual_block_constructor_checks
    (i o : Z) (d : Z * Z) (k : Z) (nl : string) (alpha e : Q) :
  (((k - 1) * fst d) mod 2 <> 0 ->
   ResidualBlock_init i o d k nl alpha e = Raise (AssertionError ""))
  /\ (((k - 1) * fst d) mod 2 = 0 -> (o - i) mod 2 <> 0 ->
      ResidualBlock_init i o d k nl alpha e
      = Raise (AssertionError need_even_message))
  /\ (forall blk, ResidualBlock_init i o d k nl alpha e = Ok blk ->
        ((k - 1) * fst d) mod 2 = 0 /\ (o - i) mod 2 = 0)
  /\ (k mod 2 = 1 -> ((k - 1) * fst d) mod 2 = 0).
Proof.
  unfold ResidualBlock_init, need_even_message, imul64. cbv zeta.
  rewrite wrap64_parity.
  split; [| split; [| split]].
  - intros Ht. apply Z.eqb_neq in Ht. now rewrite Ht.
  - intros Ht Hc. apply Z.eqb_neq in Hc. now rewrite Ht, Hc.
  - intros blk Hb.
    destruct (Z.eqb_spec ((k - 1) * fst d mod 2) 0); [| discriminate Hb].
    destruct (Z.eqb_spec ((o - i) mod 2) 0); [| discriminate Hb].
    auto.
  - intros Hk. pose proof (Z.div_mod k 2) as Hdm.
    replace ((k - 1) * fst d) with (fst d * (k / 2) * 2) by lia.
    apply Z_mod_mult.
Qed.

(** X14.  [_weights_init] touches nothing but the contents of [weight]
    and [bias]: whenever it returns, the module has the class, the
    constructor arguments and the bias (or absence of bias) it had. *)
Theorem X14_weights_init_keeps_configuration
    (l l' : layer) (f : W -> W) :
  weights_init l f = Ok l' ->
  class_name l' = class_name l /\ erase_params l' = erase_params l.
Proof.
  destruct l as [h | pat | c | b | cls | os]; unfold weights_init.
  - destruct h; cbn; intros [= <-]; auto.
  - cbn. intros [= <-]. auto.
  - cbn [class_name]. destruct weights_init_case_values as [-> _].
    cbn [get_weight bind set_weight get_bias conv_bias].
    destruct (conv_bias c) eqn:Hb; intros [= <-]; cbn; rewrite ?Hb; auto.
  - cbn [class_name]. destruct weights_init_case_values as [_ [-> _]].
    cbn. intros [= <-]. auto.
  - cbn [class_name]. destruct (weights_init_case cls); cbn;
      intros E; try discriminate E. injection E as <-. auto.
  - cbn. intros [= <-]. auto.
Qed.

Lemma no_bias_free_in_entries (f : W -> W) (n : Z) (ks : list (Z * Z)) :
  filter bias_free
    (flat_map (fun nm : string * module => module_layers (snd nm))
       (map (fun nm => (fst nm, initialised_module f (snd nm)))
          (map (res_entry n) ks)))
  = [].
Proof.
  induction ks as [| bk ks IH]; [reflexivity |].
  cbn [map flat_map]. rewrite filter_app, IH. reflexivity.
Qed.

(** X15.  A constructed model has exactly one convolution without bias:
    the one right before the first batch normalisation ([conv_spat] with
    [split_first_layer], [conv_time] without). *)
Theorem X15_one_convolution_without_bias (a : Args) (m : EEGResNet) :
  EEGResNet_init a = Ok m ->
  List.length (filter bias_free (all_layers m)) = 1%nat
  /\ exists c,
       get_module (if split_first_layer a then "conv_spat" else "conv_time")
         (_modules m) = Some (Layer (Conv c))
       /\ conv_bias c = None.
Proof.
  intros Hm. apply init_success in Hm as [_ [_ ->]]. split.
  - unfold all_layers. cbn [_modules]. unfold final_modules, raw_modules.
    rewrite !map_app, !flat_map_app, !filter_app, !length_app.
    rewrite no_bias_free_in_entries. cbn [List.length].
    unfold head_modules, tail_modules.
    destruct (split_first_layer a), (final_pool_length a); reflexivity.
  - cbn [_modules].
    destruct (split_first_layer a) eqn:Hs.
    + assert (Hc : In ("conv_spat",
                       Layer (Conv (built_Conv2d (n_first_filters a)
                                      (n_first_filters a) (1, n_chans a)
                                      (1, 1) (0, 0) (1, 1) false)))
                     (raw_modules a)).
      { apply in_raw_head. unfold head_modules. rewrite Hs. cbn [app].
        right. right. right. left. reflexivity. }
      rewrite (final_lookup a _ _ Hc). cbn. eexists. split; reflexivity.
    + assert (Hc : In ("conv_time",
                       Layer (Conv (built_Conv2d (n_chans a) (n_first_filters a)
                                      (first_filter_length a, 1) (1, 1)
                                      (first_filter_length a / 2, 0) (1, 1)
                                      false)))
                     (raw_modules a)).
      { apply in_raw_head. unfold head_modules. rewrite Hs. cbn [app].
        right. left. reflexivity. }
      rewrite (final_lookup a _ _ Hc). cbn. eexists. split; reflexivity.
Qed.

End MoreFacts.

(** * Further facts about the forward pass of a residual block *)

Section MoreForwardFacts.

Context `{TensorOps}.

Lemma final_block_units (a : Args) (name : string) (blk : ResidualBlock) :
  In (name, Block blk) (final_modules a) ->
  exists b k,
    is_unit (n_layers_per_block a) b k
    /\ n_pad_chans blk
       = width_after (n_first_filters a) b - chan_in (n_first_filters a) b k.
Proof.
  unfold final_modules. intros Hin.
  apply in_map_iff in Hin as [[name' x] [E Hin]]. cbn [fst snd] in E.
  injection E as -> E. destruct x as [l | b0 | cs]; try discriminate E.
  cbn [initialised_module] in E. injection E as <-. cbn [n_pad_chans].
  unfold raw_modules in Hin.
  apply in_app_or in Hin as [Hin | Hin];
    [| apply in_app_or in Hin as [Hin | Hin]].
  - unfold head_modules in Hin.
    destruct (split_first_layer a); cbn [app In] in Hin;
      repeat (destruct Hin as [Hin | Hin]; [discriminate Hin |]);
      contradiction.
  - apply in_map_iff in Hin as [[b k] [E Hin]]. unfold res_entry in E.
    cbn [fst snd] in E. injection E as _ <-.
    apply in_block_keys in Hin. exists b, k. split; [exact Hin | reflexivity].
  - unfold tail_modules in Hin. cbn [In] in Hin.
    destruct Hin as [Hin | [Hin | []]].
    + destruct (final_pool_length a); discriminate Hin.
    + discriminate Hin.
Qed.

(** X16.  In a constructed model every residual block pads its skip path
    by 0 channels or by [n_first_filters / 2] channels per side, never by
    a negative number, so that the padding step of its forward pass (the
    [if] statement) raises for no input tensor. *)
Theorem X16_skip_path_of_a_constructed_model_pads
    (a : Args) (m : EEGResNet) (name : string) (blk : ResidualBlock)
    (x : tensor R) :
  EEGResNet_init a = Ok m ->
  In (name, Block blk) (_modules m) ->
  (n_pad_chans blk = 0 \/ n_pad_chans blk = n_first_filters a)
  /\ 0 <= n_pad_chans blk / 2
  /\ pad_skip blk x
     = Ok (if n_pad_chans blk =? 0 then x
           else map (fun sample =>
                       zero_channels (n_pad_chans blk / 2) x ++ sample
                       ++ zero_channels (n_pad_chans blk / 2) x) x).
Proof.
  intros Hm Hin. apply init_success in Hm as [Hp [_ ->]].
  cbn [_modules] in Hin.
  apply construction_error_none in Hp as [_ [_ [Heven [Hn _]]]].
  apply final_block_units in Hin as [b [k [Hu Hpad]]].
  pose proof (request_delta (n_first_filters a) _ b k Hu) as Hdelta.
  rewrite <- Hpad in Hdelta.
  pose proof (Z.div_mod (n_first_filters a) 2) as Hdm.
  split; [exact Hdelta |]. split.
  - destruct Hdelta as [-> | ->]; [discriminate | lia].
  - destruct (Z.eqb_spec (n_pad_chans blk) 0) as [E0 | Hne].
    + now apply pad_skip_same.
    + destruct Hdelta as [E0 | En]; [contradiction |].
      apply pad_skip_pads; rewrite En; lia.
Qed.

(** X17.  A residual block with fewer output than input channels passes
    the assertions of its constructor, and its forward pass raises for
    every input: the skip path asks for a negative number of zero
    channels. *)
Theorem X17_forward_of_a_shrinking_block_raises
    (i o : Z) (d : Z * Z) (k : Z) (nl : string) (alpha e : Q)
    (blk : ResidualBlock) (x : tensor R) :
  ResidualBlock_init i o d k nl alpha e = Ok blk -> o < i ->
  n_pad_chans blk / 2 < 0
  /\ pad_skip blk x = Raise (RuntimeError "negative dimension")
  /\ forward blk x = Raise (RuntimeError "negative dimension").
Proof.
  intros Hb Hlt. apply init_n_pad_chans in Hb as [Hn Heven].
  pose proof (Z.div_mod (o - i) 2) as Hdm.
  assert (Hneg : n_pad_chans blk / 2 < 0) by (rewrite Hn; lia).
  assert (Hskip : pad_skip blk x = Raise (RuntimeError "negative dimension")).
  { unfold pad_skip.
    destruct (Z.eqb_spec (n_pad_chans blk) 0) as [E0 | _]; [lia |].
    cbn [negb]. unfold new_zeros.
    apply Z.ltb_lt in Hneg. rewrite Hneg.
    rewrite orb_true_r. reflexivity. }
  split; [exact Hneg |]. split; [exact Hskip |].
  unfold forward. rewrite Hskip. reflexivity.
Qed.

Lemma skipn_prefix {A : Type} (l1 l2 : list A) :
  skipn (List.length l1) (l1 ++ l2) = l2.
Proof. induction l1 as [| v l1 IH]; [reflexivity | exact IH]. Qed.

Lemma firstn_prefix {A : Type} (l1 l2 : list A) :
  firstn (List.length l1) (l1 ++ l2) = l1.
Proof.
  induction l1 as [| v l1 IH]; [reflexivity |].
  simpl. f_equal. exact IH.
Qed.

(** X18.  The skip path keeps the input: for a block with at least as
    many output as input channels it returns a tensor with as many samples
    as the input, in which the channels of each input sample stand
    unchanged and in order, right after the [(out - in) / 2] leading zero
    channels. *)
Theorem X18_skip_path_keeps_the_input
    (i o : Z) (d : Z * Z) (k : Z) (nl : string) (alpha e : Q)
    (blk : ResidualBlock) (x : tensor R) :
  ResidualBlock_init i o d k nl alpha e = Ok blk -> i <= o ->
  exists y,
    pad_skip blk x = Ok y
    /\ List.length y = List.length x
    /\ forall j sample,
         nth_error x j = Some sample ->
         exists padded,
           nth_error y j = Some padded
           /\ List.length padded
              = (List.length sample + 2 * Z.to_nat ((o - i) / 2))%nat
           /\ firstn (List.length sample)
                (skipn (Z.to_nat ((o - i) / 2)) padded)
              = sample.
Proof.
  intros Hb Hio. apply init_n_pad_chans in Hb as [Hn Heven].
  pose proof (Z.div_mod (o - i) 2) as Hdm.
  destruct (Z.eq_dec o i) as [-> | Hne].
  - exists x. split; [apply pad_skip_same; lia |]. split; [reflexivity |].
    intros j sample Hj. exists sample. split; [exact Hj |].
    rewrite Z.sub_diag. cbn [Z.div Z.to_nat skipn]. change (0 / 2) with 0.
    cbn [Z.to_nat skipn]. rewrite Nat.add_0_r, firstn_all. auto.
  - set (p := (o - i) / 2).
    exists (map (fun sample => zero_channels p x ++ sample
                               ++ zero_channels p x) x).
    split; [apply pad_skip_pads; unfold p; lia |].
    split; [apply length_map |].
    intros j sample Hj. eexists. split.
    + apply map_nth_error. exact Hj.
    + split.
      * rewrite !length_app, zero_channels_length. lia.
      * rewrite <- (zero_channels_length p x), skipn_prefix.
        apply firstn_prefix.
Qed.

End MoreForwardFacts.

(** * The further facts on concrete inputs *)


Lemma X2_witness :
  EEGResNet_init example_args = Ok (constructed example_args)
  /\ map fst (_modules (constructed example_args))
     = ["ensuredims"; "dimshuffle"; "conv_time"; "conv_spat"; "bnorm";
        "conv_nonlin"; "res_1_0"; "res_1_1"; "res_2_0"; "res_2_1";
        "res_3_0"; "res_3_1"; "res_4_0"; "res_4_1"; "res_5_0"; "res_5_1";
        "res_6_0"; "res_6_1"; "res_7_0"; "res_7_1"; "mean_pool";
        "final_layer"].
Proof.
  assert (Hm : EEGResNet_init example_args = Ok (constructed example_args))
    by (vm_compute; reflexivity).
  split; [exact Hm |].
  exact (X2_child_order example_args (constructed example_args) Hm).
Defined.

Lemma X3_witness :
  EEGResNet_init example_args_no_layers
  = Ok (constructed example_args_no_layers)
  /\ Z.of_nat (List.length (residual_blocks (constructed example_args_no_layers)))
     = 6.
Proof.
  assert (Hm : EEGResNet_init example_args_no_layers
               = Ok (constructed example_args_no_layers))
    by (vm_compute; reflexivity).
  split; [exact Hm |].
  exact (X3_number_of_residual_blocks example_args_no_layers
           (constructed example_args_no_layers) Hm).
Defined.

(** With two layers per block there are 14 residual blocks. *)
Example fourteen_residual_blocks :
  List.length (residual_blocks (constructed example_args)) = 14%nat.
Proof. vm_compute. reflexivity. Qed.

Lemma X5_witness :
  EEGResNet_init example_args = Ok (constructed example_args)
  /\ Z.even (n_first_filters example_args) = true
  /\ Z.odd (first_filter_length example_args) = true
  /\ (final_pool_length example_args = Auto ->
      exists t, n_times example_args = Some t)
  /\ attrs (constructed example_args) = example_args
  /\ training (constructed example_args) = true.
Proof.
  assert (Hm : EEGResNet_init example_args = Ok (constructed example_args))
    by (vm_compute; reflexivity).
  split; [exact Hm |].
  exact (X5_what_a_returned_model_tells example_args
           (constructed example_args) Hm).
Defined.

Lemma X6_witness :
  EEGResNet_init example_args_odd = Raise (AssertionError need_even_message)
  /\ ((need_even_message = ""
       /\ ((final_pool_length example_args_odd = Auto
            /\ n_times example_args_odd = None)
           \/ Z.even (first_filter_length example_args_odd) = true))
      \/ (need_even_message = need_even_message
          /\ Z.odd (n_first_filters example_args_odd) = true
          /\ Z.odd (first_filter_length example_args_odd) = true
          /\ (final_pool_length example_args_odd = Auto ->
              n_times example_args_odd <> None))).
Proof.
  assert (Hm : EEGResNet_init example_args_odd
               = Raise (AssertionError need_even_message))
    by (vm_compute; reflexivity).
  split; [exact Hm |].
  exact (X6_assertion_message_tells_cause example_args_odd
           need_even_message Hm).
Defined.

Lemma X7_witness :
  EEGResNet_init example_args = Ok (constructed example_args)
  /\ exists c,
       get_module "final_layer" (_modules (constructed example_args))
       = Some (Sequential [("conv_classifier", Conv c);
                           ("squeeze", Helper SqueezeFinalOutput)])
       /\ in_channels c = 60
       /\ out_channels c = 4
       /\ kernel_size c = (1, 1)
       /\ conv_weight c = Kaiming (Fresh [4; 60; 1; 1])
       /\ conv_bias c = Some (Filled (Fresh [4]) 0)
       /\ last (map fst (_modules (constructed example_args))) ""
          = "final_layer".
Proof.
  assert (Hm : EEGResNet_init example_args = Ok (constructed example_args))
    by (vm_compute; reflexivity).
  split; [exact Hm |].
  exact (X7_classifier example_args (constructed example_args) Hm).
Defined.

Lemma X8_witness :
  split_first_layer example_args = true
  /\ EEGResNet_init example_args = Ok (constructed example_args)
  /\ get_module "dimshuffle" (_modules (constructed example_args))
     = Some (Layer (Rearrange "batch C T 1 -> batch 1 T C"))
  /\ exists c,
       get_module "conv_spat" (_modules (constructed example_args))
       = Some (Layer (Conv c))
       /\ in_channels c = 20 /\ out_channels c = 20
       /\ kernel_size c = (1, 22) /\ stride c = (1, 1)
       /\ padding c = (0, 0) /\ conv_bias c = None.
Proof.
  assert (Hs : split_first_layer example_args = true) by reflexivity.
  assert (Hm : EEGResNet_init example_args = Ok (constructed example_args))
    by (vm_compute; reflexivity).
  split; [exact Hs |]. split; [exact Hm |].
  exact (X8_conv_spat_of_split_first_layer example_args
           (constructed example_args) Hs Hm).
Defined.

Lemma X9_witness :
  split_first_layer example_args_single = false
  /\ EEGResNet_init example_args_single = Ok (constructed example_args_single)
  /\ get_module "dimshuffle" (_modules (constructed example_args_single)) = None
  /\ get_module "conv_spat" (_modules (constructed example_args_single)) = None
  /\ exists c,
       get_module "conv_time" (_modules (constructed example_args_single))
       = Some (Layer (Conv c))
       /\ in_channels c = 22 /\ out_channels c = 20
       /\ kernel_size c = (3, 1) /\ padding c = (1, 0)
       /\ conv_bias c = None.
Proof.
  assert (Hs : split_first_layer example_args_single = false) by reflexivity.
  assert (Hm : EEGResNet_init example_args_single
               = Ok (constructed example_args_single))
    by (vm_compute; reflexivity).
  split; [exact Hs |]. split; [exact Hm |].
  exact (X9_single_first_convolution example_args_single
           (constructed example_args_single) Hs Hm).
Defined.

Lemma X10_witness :
  EEGResNet_init (with_batch_norm_alpha (1 # 10) example_args)
  = Ok (constructed (with_batch_norm_alpha (1 # 10) example_args))
  /\ EEGResNet_init (with_batch_norm_alpha (1 # 2) example_args)
     = Ok (constructed (with_batch_norm_alpha (1 # 2) example_args))
  /\ (exists b,
        get_module "bnorm"
          (_modules (constructed (with_batch_norm_alpha (1 # 10) example_args)))
        = Some (Layer (BatchNorm b))
        /\ momentum b = (1 # 10)%Q /\ num_features b = 20)
  /\ (exists b,
        _modules (constructed (with_batch_norm_alpha (1 # 2) example_args))
        = add_module "bnorm" (Layer (BatchNorm b))
            (_modules
               (constructed (with_batch_norm_alpha (1 # 10) example_args)))
        /\ momentum b = (1 # 2)%Q)
  /\ (forall name blk,
        In (name, Block blk)
          (_modules (constructed (with_batch_norm_alpha (1 # 10) example_args)))
        ->
        exists b1 b2, bn1 blk = BatchNorm b1 /\ bn2 blk = BatchNorm b2
                      /\ momentum b1 = (1 # 10)%Q
                      /\ momentum b2 = (1 # 10)%Q).
Proof.
  assert (Hm1 : EEGResNet_init (with_batch_norm_alpha (1 # 10) example_args)
                = Ok (constructed
                        (with_batch_norm_alpha (1 # 10) example_args)))
    by (vm_compute; reflexivity).
  assert (Hm2 : EEGResNet_init (with_batch_norm_alpha (1 # 2) example_args)
                = Ok (constructed
                        (with_batch_norm_alpha (1 # 2) example_args)))
    by (vm_compute; reflexivity).
  split; [exact Hm1 |]. split; [exact Hm2 |].
  exact (X10_batch_norm_alpha_reaches_bnorm_only example_args (1 # 10)
           (1 # 2) _ _ Hm1 Hm2).
Defined.

Lemma X11_witness :
  EEGResNet_init example_args = Ok (constructed example_args)
  /\ is_unit (n_layers_per_block example_args) 7 1
  /\ exists blk c1 c2,
       res_at (constructed example_args) 7 1 = Some blk
       /\ conv_1 blk = Conv c1 /\ conv_2 blk = Conv c2
       /\ kernel_size c1 = (3, 1) /\ kernel_size c2 = (3, 1)
       /\ stride c1 = (1, 1) /\ stride c2 = (1, 1)
       /\ padding c1 = (64, 0) /\ padding c2 = (64, 0)
       /\ dilation c1 = (64, 1) /\ dilation c2 = (64, 1)
       /\ forall L, conv_out_len c1 L = L /\ conv_out_len c2 L = L.
Proof.
  assert (Hm : EEGResNet_init example_args = Ok (constructed example_args))
    by (vm_compute; reflexivity).
  assert (Hu : is_unit (n_layers_per_block example_args) 7 1)
    by (unfold is_unit; simpl; lia).
  split; [exact Hm |]. split; [exact Hu |].
  exact (X11_blocks_pad_by_their_dilation example_args
           (constructed example_args) 7 1 Hm Hu).
Defined.

Lemma X12_witness :
  EEGResNet_init example_args = Ok (constructed example_args)
  /\ exists c,
       get_module "conv_time" (_modules (constructed example_args))
       = Some (Layer (Conv c))
       /\ fst (kernel_size c) = 3 /\ fst (padding c) = 1
       /\ fst (stride c) = 1 /\ fst (dilation c) = 1
       /\ forall L, conv_out_len c L = L.
Proof.
  assert (Hm : EEGResNet_init example_args = Ok (constructed example_args))
    by (vm_compute; reflexivity).
  split; [exact Hm |].
  exact (X12_conv_time_keeps_length example_args (constructed example_args)
           Hm).
Defined.

Lemma X14_witness :
  weights_init (Conv (built_Conv2d 1 20 (3, 1) (1, 1) (1, 0) (1, 1) true)) Kaiming
  = Ok (initialised Kaiming
          (Conv (built_Conv2d 1 20 (3, 1) (1, 1) (1, 0) (1, 1) true)))
  /\ class_name
       (initialised Kaiming
          (Conv (built_Conv2d 1 20 (3, 1) (1, 1) (1, 0) (1, 1) true)))
     = "Conv2d"
  /\ erase_params
       (initialised Kaiming
          (Conv (built_Conv2d 1 20 (3, 1) (1, 1) (1, 0) (1, 1) true)))
     = erase_params (Conv (built_Conv2d 1 20 (3, 1) (1, 1) (1, 0) (1, 1) true)).
Proof.
  assert (Hl : weights_init
                 (Conv (built_Conv2d 1 20 (3, 1) (1, 1) (1, 0) (1, 1) true))
                 Kaiming
               = Ok (initialised Kaiming
                       (Conv (built_Conv2d 1 20 (3, 1) (1, 1) (1, 0) (1, 1)
                                true))))
    by (vm_compute; reflexivity).
  split; [exact Hl |].
  exact (X14_weights_init_keeps_configuration _ _ Kaiming Hl).
Defined.

Lemma X15_witness :
  EEGResNet_init example_args = Ok (constructed example_args)
  /\ List.length (filter bias_free (all_layers (constructed example_args)))
     = 1%nat
  /\ exists c,
       get_module "conv_spat" (_modules (constructed example_args))
       = Some (Layer (Conv c))
       /\ conv_bias c = None.
Proof.
  assert (Hm : EEGResNet_init example_args = Ok (constructed example_args))
    by (vm_compute; reflexivity).
  split; [exact Hm |].
  exact (X15_one_convolution_without_bias example_args
           (constructed example_args) Hm).
Defined.

Lemma X16_witness :
  EEGResNet_init example_args = Ok (constructed example_args)
  /\ In ("res_2_0", Block example_model_block)
       (_modules (constructed example_args))
  /\ (n_pad_chans example_model_block = 0
      \/ n_pad_chans example_model_block = 20)
  /\ 0 <= n_pad_chans example_model_block / 2
  /\ pad_skip example_model_block example_input_wide
     = Ok (map (fun sample =>
                  zero_channels 10 example_input_wide ++ sample
                  ++ zero_channels 10 example_input_wide)
             example_input_wide).
Proof.
  assert (Hm : EEGResNet_init example_args = Ok (constructed example_args))
    by (vm_compute; reflexivity).
  assert (Hin : In ("res_2_0", Block example_model_block)
                  (_modules (constructed example_args)))
    by (apply get_module_some_in; vm_compute; reflexivity).
  split; [exact Hm |]. split; [exact Hin |].
  exact (X16_skip_path_of_a_constructed_model_pads example_args
           (constructed example_args) "res_2_0" example_model_block
           example_input_wide Hm Hin).
Defined.

Lemma X17_witness :
  ResidualBlock_init 3 1 (1, 1) 3 "ELU" (1 # 10) (1 # 10000)
  = Ok (res_block 3 1 (1, 1))
  /\ 1 < 3
  /\ n_pad_chans (res_block 3 1 (1, 1)) / 2 < 0
  /\ pad_skip (res_block 3 1 (1, 1)) example_input
     = Raise (RuntimeError "negative dimension")
  /\ forward (res_block 3 1 (1, 1)) example_input
     = Raise (RuntimeError "negative dimension").
Proof.
  assert (Hb : ResidualBlock_init 3 1 (1, 1) 3 "ELU" (1 # 10) (1 # 10000)
               = Ok (res_block 3 1 (1, 1))) by reflexivity.
  assert (Hlt : 1 < 3) by lia.
  split; [exact Hb |]. split; [exact Hlt |].
  exact (X17_forward_of_a_shrinking_block_raises 3 1 (1, 1) 3 "ELU"
           (1 # 10) (1 # 10000) (res_block 3 1 (1, 1)) example_input Hb Hlt).
Defined.

Lemma X18_witness :
  ResidualBlock_init 1 3 (1, 1) 3 "ELU" (1 # 10) (1 # 10000) = Ok example_block
  /\ 1 <= 3
  /\ exists y,
       pad_skip example_block example_input = Ok y
       /\ List.length y = List.length example_input
       /\ forall j sample,
            nth_error example_input j = Some sample ->
            exists padded,
              nth_error y j = Some padded
              /\ List.length padded = (List.length sample + 2 * 1)%nat
              /\ firstn (List.length sample) (skipn 1 padded) = sample.
Proof.
  assert (Hb : ResidualBlock_init 1 3 (1, 1) 3 "ELU" (1 # 10) (1 # 10000)
               = Ok example_block) by reflexivity.
  assert (Hio : 1 <= 3) by lia.
  split; [exact Hb |]. split; [exact Hio |].
  exact (X18_skip_path_keeps_the_input 1 3 (1, 1) 3 "ELU" (1 # 10)
           (1 # 10000) example_block example_input Hb Hio).
Defined.
